(** * Dubai real-estate price prediction: the pipeline of app/model.py

    A shallow embedding of [DubaiRealEstateModel] (feature encoding, the
    rule-based dummy model, model loading with its fallback, sale and rent
    prediction) and of the request schemas of app/schemas.py.

    Modelling conventions.
    - Python and numpy floats are rational numbers ([Q]) with exact
      arithmetic; [round(x, 2)] is rounding to the nearest multiple of
      1/100, ties to the even one.  Numeric results are compared with [==].
      A float of the program carries a relative error of about 1e-16 that
      the rationals do not have: next to a rounding tie the program can
      return the neighbouring cent, so statements about amounts are bounds
      and relations between rounded amounts, not equations with unrounded
      ones.  What is kept of the floats is their range: converting an
      integer beyond it raises OverflowError.
    - [request_data] is the dict made by [request.dict()]: a record whose
      fields carry the types of the request schemas; a field is [None] when
      the key is missing (for [floor] and [building_age_years] also when the
      value is Python's [None], which [dict.get] does not tell apart).
    - Exceptions are values: a computation returns [Return v] or [Raise e].
    - The operating system (environment variables, the file system, joblib)
      and the clock are explicit arguments. *)

From Stdlib Require Import ZArith QArith Qround Qabs Lqa.
From stdpp Require Import gmap strings list.

Local Open Scope string_scope.
Local Open Scope Q_scope.

(** ** Exceptions *)

Inductive exn : Type :=
| ZeroDivisionError
| IndexError
| AttributeError
| OverflowError
| Exception (msg : string).

Inductive result (A : Type) : Type :=
| Return (a : A)
| Raise (e : exn).

Arguments Return {A} a.
Arguments Raise {A} e.

Definition bind {A B : Type} (c : result A) (k : A -> result B) : result B :=
  match c with
  | Return a => k a
  | Raise e => Raise e
  end.

Notation "x <- c ;; k" := (bind c (fun x => k))
  (at level 100, c at next level, right associativity).

(** [try: body except Exception as e: handler]; every [exn] above is a
    subclass of [Exception]. *)
Definition try_except {A : Type} (body : result A) (handler : exn -> result A)
  : result A :=
  match body with
  | Return a => Return a
  | Raise e => handler e
  end.

(** ** Python built-ins *)

(** [d.get(key, default)] on a key that may be missing. *)
Definition get {A : Type} (value : option A) (default : A) : A :=
  match value with
  | Some v => v
  | None => default
  end.

(** [l[i]] *)
Definition index {A : Type} (l : list A) (i : nat) : result A :=
  match l !! i with
  | Some a => Return a
  | None => Raise IndexError
  end.

(** [int(b)] of a bool *)
Definition int (b : bool) : Z := if b then 1%Z else 0%Z.

(** Truth value of an optional integer: [None] and [0] are falsy. *)
Definition truthy (value : option Z) : bool :=
  match value with
  | Some v => negb (v =? 0)%Z
  | None => false
  end.

Definition Qlt_bool (x y : Q) : bool := negb (Qle_bool y x).

(** [x / y] on Python floats. *)
Definition truediv (x y : Q) : result Q :=
  if Qeq_bool y 0 then Raise ZeroDivisionError else Return (x / y).

(** The integers a float can hold: an int converts when its magnitude is
    below 2^1024 - 2^970, the first to round to 2^1024. *)
Definition float_max_int : Z := (2 ^ 1024 - 2 ^ 970)%Z.

(** The conversion of the int operand of [v / y] with a float [y]:
    OverflowError, int too large to convert to float. *)
Definition float_of_int (v : Z) : result Q :=
  if (Z.abs v <? float_max_int)%Z then Return (inject_Z v)
  else Raise OverflowError.

(** [v / y] for an int [v] and a float [y]. *)
Definition int_truediv (v : Z) (y : Q) : result Q :=
  x <- float_of_int v ;;
  truediv x y.

(** [sum(l)]: a left fold starting from 0. *)
Definition sum (l : list Q) : Q := fold_left Qplus l 0.

Definition round_half_even (x : Q) : Z :=
  let f := Qfloor x in
  let r := x - inject_Z f in
  if Qlt_bool r (1 # 2) then f
  else if Qlt_bool (1 # 2) r then (f + 1)%Z
  else if Z.even f then f else (f + 1)%Z.

(** [round(x, ndigits)] on the exact value: the program rounds the float
    it has, which next to a tie can land on the other neighbouring
    multiple. *)
Definition round (x : Q) (ndigits : nat) : Q :=
  let scale := (10 ^ Z.of_nat ndigits)%Z in
  round_half_even (x * inject_Z scale) # Z.to_pos scale.

(** ** Data *)

(** The [request_data] dict. *)
Record request_dict : Type := {
  property_type : option string;
  bedrooms : option Z;
  bathrooms : option Z;
  area_sqft : option Q;
  location : option string;
  floor : option Z;
  building_age_years : option Z;
  has_parking : option bool;
  has_balcony : option bool;
  has_gym : option bool;
  has_pool : option bool;
  near_metro : option bool;
  furnished : option bool;
  contract_type : option string
}.

(** The dict returned by [predict_sale_price] and [predict_rent_price];
    the key [rental_type] is only in rent results. *)
Record PredictionResult : Type := {
  predicted_price_aed : Q;
  price_per_sqft_aed : Q;
  location_premium : Q;
  confidence_score : Q;
  model_version : string;
  prediction_timestamp : string;
  rental_type : option string
}.

(** What [self.model] can hold: the dummy model, or an object read from the
    artifact by joblib, known only by its [predict]. *)
Inductive model_obj : Type :=
| DummyModel
| Artifact (predict : list (list Q) -> result (list Q)).

(** The attributes of an instance; the module keeps [model_version] apart
    from the key of the same name in a result. *)
Module DubaiRealEstateModel.

Record t : Type := {
  model_path : string;
  model : option model_obj;
  model_version : string
}.

End DubaiRealEstateModel.

Abbreviation self_t := DubaiRealEstateModel.t.

(** The process environment seen by [__init__] and [load_model]. *)
Record os : Type := {
  getenv : string -> option string;
  path_exists : string -> bool;
  joblib_load : string -> result (list (list Q) -> result (list Q))
}.

(** ** DummyModel.predict *)

Definition DummyModel_predict_row (row : list Q) : result Q :=
  row3 <- index row 3 ;;
  row2 <- index row 2 ;;
  let base_price := 500000 in
  let location_factor := row3 * 1.5 in
  let size_factor := (row2 / 1000) * 1.2 in
  let amenities := sum (drop 7 row) * 50000 in
  let price :=
    base_price + location_factor * 200000 + size_factor * 300000 + amenities in
  Return price.

Fixpoint DummyModel_predict_loop (X : list (list Q)) (predictions : list Q)
  : result (list Q) :=
  match X with
  | [] => Return predictions
  | row :: X' =>
      price <- DummyModel_predict_row row ;;
      DummyModel_predict_loop X' (predictions ++ [price])
  end.

Definition DummyModel_predict (X : list (list Q)) : result (list Q) :=
  DummyModel_predict_loop X [].

(** [self.model.predict(X)] *)
Definition model_predict (m : option model_obj) (X : list (list Q))
  : result (list Q) :=
  match m with
  | None => Raise AttributeError
  | Some DummyModel => DummyModel_predict X
  | Some (Artifact predict) => predict X
  end.

(** ** DubaiRealEstateModel *)

Definition _create_dummy_model (self : self_t) : model_obj := DummyModel.

Definition set_model (self : self_t) (m : model_obj) : self_t :=
  {| DubaiRealEstateModel.model_path := DubaiRealEstateModel.model_path self;
     DubaiRealEstateModel.model := Some m;
     DubaiRealEstateModel.model_version :=
       DubaiRealEstateModel.model_version self |}.

Definition load_model (w : os) (self : self_t) : result self_t :=
  try_except
    (if path_exists w (DubaiRealEstateModel.model_path self) then
       m <- joblib_load w (DubaiRealEstateModel.model_path self) ;;
       Return (set_model self (Artifact m))
     else
       Return (set_model self (_create_dummy_model self)))
    (fun e => Return (set_model self (_create_dummy_model self))).

Definition __init__ (w : os) (model_path : string) : result self_t :=
  let self :=
    {| DubaiRealEstateModel.model_path := model_path;
       DubaiRealEstateModel.model := None;
       DubaiRealEstateModel.model_version :=
         get (getenv w "MODEL_VERSION") "v1.0.0" |} in
  load_model w self.

(** The elements of the array are evaluated in order; only the two
    divisions can raise. *)
Definition encode_features (self : self_t) (request_data : request_dict)
  : result (list (list Q)) :=
  let location_map : gmap string Q :=
    list_to_map
      [("dubai_marina", 1.0); ("downtown", 1.2); ("business_bay", 1.1);
       ("jlt", 0.9); ("jbr", 1.0); ("difc", 1.3); ("palm_jumeirah", 1.4);
       ("emirates_hills", 1.2); ("arabian_ranches", 0.8); ("dubai_hills", 0.9);
       ("motor_city", 0.7)] in
  let property_type_map : gmap string Q :=
    list_to_map
      [("apartment", 1.0); ("villa", 1.5); ("townhouse", 1.2);
       ("studio", 0.7); ("penthouse", 1.8)] in
  let location_factor :=
    get (location_map !! get (location request_data) "dubai_marina") 1.0 in
  let property_factor :=
    get (property_type_map !! get (property_type request_data) "apartment")
      1.0 in
  floor_normalized <-
    (if truthy (floor request_data)
     then int_truediv (get (floor request_data) 5%Z) 50.0
     else Return 0.1) ;;
  age_normalized <-
    (if truthy (building_age_years request_data)
     then int_truediv (get (building_age_years request_data) 5%Z) 50.0
     else Return 0.1) ;;
  Return
    [[ inject_Z (get (bedrooms request_data) 0%Z);
       inject_Z (get (bathrooms request_data) 0%Z);
       get (area_sqft request_data) 1000;
       location_factor;
       property_factor;
       floor_normalized;
       age_normalized;
       inject_Z (int (get (has_parking request_data) true));
       inject_Z (int (get (has_balcony request_data) false));
       inject_Z (int (get (has_gym request_data) false));
       inject_Z (int (get (has_pool request_data) false));
       inject_Z (int (get (near_metro request_data) false));
       inject_Z (int (get (furnished request_data) false)) ]].

Definition _get_location_factor (self : self_t) (location : string) : Q :=
  let location_map : gmap string Q :=
    list_to_map
      [("dubai_marina", 1.0); ("downtown", 1.2); ("business_bay", 1.1);
       ("jlt", 0.9); ("jbr", 1.0); ("difc", 1.3); ("palm_jumeirah", 1.4);
       ("emirates_hills", 1.2); ("arabian_ranches", 0.8); ("dubai_hills", 0.9);
       ("motor_city", 0.7)] in
  get (location_map !! location) 1.0.

(** [utcnow] stands for [datetime.utcnow().isoformat()] read during the
    call. *)
Definition predict_sale_price (self : self_t) (utcnow : string)
    (request_data : request_dict) : result PredictionResult :=
  features <- encode_features self request_data ;;
  predictions <- model_predict (DubaiRealEstateModel.model self) features ;;
  prediction <- index predictions 0 ;;
  let area_sqft := get (area_sqft request_data) 1000 in
  let price_per_sqft :=
    if Qlt_bool 0 area_sqft then prediction / area_sqft else 0 in
  let location_factor :=
    _get_location_factor self (get (location request_data) "dubai_marina") in
  Return
    {| predicted_price_aed := round prediction 2;
       price_per_sqft_aed := round price_per_sqft 2;
       location_premium := round (location_factor - 1.0) 2;
       confidence_score := 0.85;
       model_version := DubaiRealEstateModel.model_version self;
       prediction_timestamp := utcnow ++ "Z";
       rental_type := None |}.

(** [{**sale_prediction, "predicted_price_aed": p, "price_per_sqft_aed": q,
      "rental_type": t}] *)
Definition overlay (sale_prediction : PredictionResult) (p q : Q) (t : string)
  : PredictionResult :=
  {| predicted_price_aed := p;
     price_per_sqft_aed := q;
     location_premium := location_premium sale_prediction;
     confidence_score := confidence_score sale_prediction;
     model_version := model_version sale_prediction;
     prediction_timestamp := prediction_timestamp sale_prediction;
     rental_type := Some t |}.

Definition predict_rent_price (self : self_t) (utcnow : string)
    (request_data : request_dict) : result PredictionResult :=
  sale_prediction <- predict_sale_price self utcnow request_data ;;
  let annual_rent := predicted_price_aed sale_prediction * 0.08 in
  let contract_type := get (contract_type request_data) "annual" in
  if String.eqb contract_type "monthly" then
    let monthly_rent := annual_rent / 12 in
    per_sqft <- truediv monthly_rent (get (area_sqft request_data) 1000) ;;
    Return (overlay sale_prediction
              (round monthly_rent 2) (round per_sqft 2) "monthly")
  else
    per_sqft <- truediv annual_rent (get (area_sqft request_data) 1000) ;;
    Return (overlay sale_prediction
              (round annual_rent 2) (round per_sqft 2) "annual").

(** ** Request schemas (app/schemas.py) *)

Definition PropertyType : list string :=
  ["apartment"; "villa"; "townhouse"; "studio"; "penthouse"].

Definition DubaiLocation : list string :=
  ["dubai_marina"; "downtown"; "business_bay"; "jlt"; "jbr"; "difc";
   "palm_jumeirah"; "emirates_hills"; "arabian_ranches"; "dubai_hills";
   "motor_city"].

(** [Field(..., ge=lo, le=hi)] *)
Definition ge_le (lo hi v : Z) : bool := (lo <=? v)%Z && (v <=? hi)%Z.

(** [Optional[int] = Field(None, ge=0)] *)
Definition optional_ge (lo : Z) (value : option Z) : bool :=
  match value with
  | Some v => (lo <=? v)%Z
  | None => true
  end.

(** [request.dict()] of a [SalePredictionRequest] built from [body], [None]
    when validation fails.
    The schema has no [contract_type] field, so the dict has no such key. *)
Definition SalePredictionRequest (body : request_dict) : option request_dict :=
  match property_type body, bedrooms body, bathrooms body,
        area_sqft body, location body with
  | Some pt, Some bd, Some bt, Some area, Some loc =>
      if bool_decide (pt ∈ PropertyType) && ge_le 0 10 bd && ge_le 0 10 bt
         && Qlt_bool 0 area && bool_decide (loc ∈ DubaiLocation)
         && optional_ge 0 (floor body)
         && optional_ge 0 (building_age_years body)
      then
        Some {| property_type := Some pt;
                bedrooms := Some bd;
                bathrooms := Some bt;
                area_sqft := Some area;
                location := Some loc;
                floor := floor body;
                building_age_years := building_age_years body;
                has_parking := Some (get (has_parking body) true);
                has_balcony := Some (get (has_balcony body) false);
                has_gym := Some (get (has_gym body) false);
                has_pool := Some (get (has_pool body) false);
                near_metro := Some (get (near_metro body) false);
                furnished := Some (get (furnished body) false);
                contract_type := None |}
      else None
  | _, _, _, _, _ => None
  end.

(** [request.dict()] of a [RentPredictionRequest] built from [body], [None]
    when validation fails.  A body is a [request_dict]: a key that is
    present holds a value of the type the schema declares, so the check
    that [contract_type] is a string is met by every body written here (a
    null or a number under that key, which this schema rejects and the
    sale schema ignores, is not a [request_dict]). *)
Definition RentPredictionRequest (body : request_dict) : option request_dict :=
  match property_type body, bedrooms body, bathrooms body,
        area_sqft body, location body with
  | Some pt, Some bd, Some bt, Some area, Some loc =>
      if bool_decide (pt ∈ PropertyType) && ge_le 0 10 bd && ge_le 0 10 bt
         && Qlt_bool 0 area && bool_decide (loc ∈ DubaiLocation)
      then
        Some {| property_type := Some pt;
                bedrooms := Some bd;
                bathrooms := Some bt;
                area_sqft := Some area;
                location := Some loc;
                floor := floor body;
                building_age_years := building_age_years body;
                has_parking := Some (get (has_parking body) true);
                has_balcony := Some (get (has_balcony body) false);
                has_gym := Some (get (has_gym body) false);
                has_pool := Some (get (has_pool body) false);
                near_metro := Some (get (near_metro body) false);
                furnished := Some (get (furnished body) false);
                contract_type := Some (get (contract_type body) "annual") |}
      else None
  | _, _, _, _, _ => None
  end.

(** ** Vocabulary of the statements *)

(** The dict [request_data] with the key [contract_type] set to [c], or
    removed for [None]. *)
Definition with_contract_type (request_data : request_dict) (c : option string)
  : request_dict :=
  {| property_type := property_type request_data;
     bedrooms := bedrooms request_data;
     bathrooms := bathrooms request_data;
     area_sqft := area_sqft request_data;
     location := location request_data;
     floor := floor request_data;
     building_age_years := building_age_years request_data;
     has_parking := has_parking request_data;
     has_balcony := has_balcony request_data;
     has_gym := has_gym request_data;
     has_pool := has_pool request_data;
     near_metro := near_metro request_data;
     furnished := furnished request_data;
     contract_type := c |}.

(** The area both predictions divide by. *)
Definition area_of (request_data : request_dict) : Q :=
  get (area_sqft request_data) 1000.

(** [row[i]] of an encoded row *)
Definition feature (row : list Q) (i : nat) : Q := nth i row 0.

(** An optional integer that a float can hold, when it is given. *)
Definition float_ok (value : option Z) : bool :=
  match value with
  | Some v => (Z.abs v <? float_max_int)%Z
  | None => true
  end.

(** The rent a contract type is charged, before rounding, and its tag. *)
Definition rent_of (sale_prediction : PredictionResult) (c : option string)
  : Q :=
  if String.eqb (get c "annual") "monthly"
  then predicted_price_aed sale_prediction * 0.08 / 12
  else predicted_price_aed sale_prediction * 0.08.

Definition rental_type_of (c : option string) : string :=
  if String.eqb (get c "annual") "monthly" then "monthly" else "annual".

(** *** The wording of the specification *)

(** The factor tables of section 4.1; an unknown name maps to 1.0. *)
Definition spec_location_factor (loc : string) : Q :=
  if String.eqb loc "dubai_marina" then 1.0
  else if String.eqb loc "downtown" then 1.2
  else if String.eqb loc "business_bay" then 1.1
  else if String.eqb loc "jlt" then 0.9
  else if String.eqb loc "jbr" then 1.0
  else if String.eqb loc "difc" then 1.3
  else if String.eqb loc "palm_jumeirah" then 1.4
  else if String.eqb loc "emirates_hills" then 1.2
  else if String.eqb loc "arabian_ranches" then 0.8
  else if String.eqb loc "dubai_hills" then 0.9
  else if String.eqb loc "motor_city" then 0.7
  else 1.0.

Definition spec_property_factor (type : string) : Q :=
  if String.eqb type "apartment" then 1.0
  else if String.eqb type "villa" then 1.5
  else if String.eqb type "townhouse" then 1.2
  else if String.eqb type "studio" then 0.7
  else if String.eqb type "penthouse" then 1.8
  else 1.0.

(** Rules 6 and 7 of section 4.1: the value over 50.0 if it is present and
    not zero, else 0.1. *)
Definition spec_normalized (value : option Z) : Q :=
  match value with
  | Some v => if (v =? 0)%Z then 0.1 else inject_Z v / 50.0
  | None => 0.1
  end.

(** The thirteen features in the order of section 4.1. *)
Definition spec_feature_vector (request_data : request_dict) : list Q :=
  [ inject_Z (get (bedrooms request_data) 0%Z);
    inject_Z (get (bathrooms request_data) 0%Z);
    get (area_sqft request_data) 1000;
    spec_location_factor (get (location request_data) "dubai_marina");
    spec_property_factor (get (property_type request_data) "apartment");
    spec_normalized (floor request_data);
    spec_normalized (building_age_years request_data);
    inject_Z (int (get (has_parking request_data) true));
    inject_Z (int (get (has_balcony request_data) false));
    inject_Z (int (get (has_gym request_data) false));
    inject_Z (int (get (has_pool request_data) false));
    inject_Z (int (get (near_metro request_data) false));
    inject_Z (int (get (furnished request_data) false)) ].

(** The closed form of section 4.3 on a feature row. *)
Definition spec_fallback_price (row : list Q) : Q :=
  500000
  + feature row 3 * 1.5 * 200000
  + (feature row 2 / 1000) * 1.2 * 300000
  + 50000 * (feature row 7 + feature row 8 + feature row 9
             + feature row 10 + feature row 11 + feature row 12).

(** *** Concrete requests, instances and environments *)

(** The apartment of the worked example: dubai_marina, 2 bedrooms,
    2 bathrooms, 1200 sqft, floor 10, 5 years old, parking only. *)
Definition marina_apartment (c : option string) : request_dict :=
  {| property_type := Some "apartment";
     bedrooms := Some 2%Z;
     bathrooms := Some 2%Z;
     area_sqft := Some 1200;
     location := Some "dubai_marina";
     floor := Some 10%Z;
     building_age_years := Some 5%Z;
     has_parking := Some true;
     has_balcony := Some false;
     has_gym := Some false;
     has_pool := Some false;
     near_metro := Some false;
     furnished := Some false;
     contract_type := c |}.

(** The same apartment as a request body with only the required keys and
    a contract type. *)
Definition marina_body (c : option string) : request_dict :=
  {| property_type := Some "apartment";
     bedrooms := Some 2%Z;
     bathrooms := Some 2%Z;
     area_sqft := Some 1200;
     location := Some "dubai_marina";
     floor := None;
     building_age_years := None;
     has_parking := None;
     has_balcony := None;
     has_gym := None;
     has_pool := None;
     near_metro := None;
     furnished := None;
     contract_type := c |}.

(** The same apartment with a zero area. *)
Definition zero_area_apartment : request_dict :=
  {| property_type := Some "apartment";
     bedrooms := Some 2%Z;
     bathrooms := Some 2%Z;
     area_sqft := Some 0;
     location := Some "dubai_marina";
     floor := Some 10%Z;
     building_age_years := Some 5%Z;
     has_parking := Some true;
     has_balcony := Some false;
     has_gym := Some false;
     has_pool := Some false;
     near_metro := Some false;
     furnished := Some false;
     contract_type := None |}.

(** The marina apartment on another floor, and in a building of another
    age. *)
Definition marina_on_floor (v : Z) : request_dict :=
  {| property_type := Some "apartment";
     bedrooms := Some 2%Z;
     bathrooms := Some 2%Z;
     area_sqft := Some 1200;
     location := Some "dubai_marina";
     floor := Some v;
     building_age_years := Some 5%Z;
     has_parking := Some true;
     has_balcony := Some false;
     has_gym := Some false;
     has_pool := Some false;
     near_metro := Some false;
     furnished := Some false;
     contract_type := None |}.

Definition marina_of_age (v : Z) : request_dict :=
  {| property_type := Some "apartment";
     bedrooms := Some 2%Z;
     bathrooms := Some 2%Z;
     area_sqft := Some 1200;
     location := Some "dubai_marina";
     floor := Some 10%Z;
     building_age_years := Some v;
     has_parking := Some true;
     has_balcony := Some false;
     has_gym := Some false;
     has_pool := Some false;
     near_metro := Some false;
     furnished := Some false;
     contract_type := None |}.

(** A studio on the ground floor, twelve years old, no key for the
    amenities. *)
Definition ground_floor_studio : request_dict :=
  {| property_type := Some "studio";
     bedrooms := Some 0%Z;
     bathrooms := Some 1%Z;
     area_sqft := Some 450;
     location := Some "jlt";
     floor := Some 0%Z;
     building_age_years := Some 12%Z;
     has_parking := None;
     has_balcony := None;
     has_gym := None;
     has_pool := None;
     near_metro := None;
     furnished := None;
     contract_type := None |}.

(** An instance whose [load_model] installed the dummy model. *)
Definition fallback_instance : self_t :=
  {| DubaiRealEstateModel.model_path :=
       "/app/models/dubai_realestate_model.pkl";
     DubaiRealEstateModel.model := Some DummyModel;
     DubaiRealEstateModel.model_version := "v1.0.0" |}.

(** What [predict_sale_price] returns for the marina apartment on that
    instance. *)
Definition marina_sale (utcnow : string) : PredictionResult :=
  {| predicted_price_aed := 1282000.00;
     price_per_sqft_aed := 1068.33;
     location_premium := 0.00;
     confidence_score := 0.85;
     model_version := "v1.0.0";
     prediction_timestamp := utcnow ++ "Z";
     rental_type := None |}.

(** An environment without artifact in which MODEL_VERSION is set to the
    empty string. *)
Definition os_empty_version : os :=
  {| getenv := fun name =>
       if String.eqb name "MODEL_VERSION" then Some "" else None;
     path_exists := fun _ => false;
     joblib_load := fun _ => Raise (Exception "No such file or directory") |}.

(** An environment whose artifact exists and cannot be deserialized. *)
Definition os_corrupt : os :=
  {| getenv := fun _ => None;
     path_exists := fun _ => true;
     joblib_load := fun _ => Raise (Exception "invalid load key") |}.

(** ** Settings (app/config.py) and the module-level instance *)

(** The attributes of [Settings] that the code below reads; each is
    computed from the environment when the module is imported. *)
Record Settings : Type := {
  MODEL_PATH : string;
  MODEL_VERSION : string;
  APP_NAME : string;
  APP_VERSION : string
}.

Definition settings (w : os) : Settings :=
  {| MODEL_PATH :=
       get (getenv w "MODEL_PATH") "/app/models/dubai_realestate_model.pkl";
     MODEL_VERSION := get (getenv w "MODEL_VERSION") "v1.0.0";
     APP_NAME := "Dubai Real Estate Price Prediction API";
     APP_VERSION := get (getenv w "APP_VERSION") "1.0.0" |}.

(** [get_model()]: the global [model_instance] is passed in and out. *)
Definition get_model (conf : Settings) (w : os)
    (model_instance : option self_t) : result (self_t * option self_t) :=
  match model_instance with
  | None =>
      m <- __init__ w (MODEL_PATH conf) ;;
      Return (m, Some m)
  | Some m => Return (m, Some m)
  end.

(** ** Responses (app/schemas.py) *)

Module PredictionResponse.

Record t : Type := {
  predicted_price_aed : Q;
  price_per_sqft_aed : Q;
  location_premium : option Q;
  confidence_score : Q;
  model_version : string;
  prediction_timestamp : string
}.

End PredictionResponse.

(** A [PredictionResponse] built from the dict [prediction]: the keys of
    the schema are kept,
    another key ([rental_type]) is ignored, [confidence_score] has to lie
    in the interval from 0 to 1. *)
Definition PredictionResponse_of (prediction : PredictionResult)
  : result PredictionResponse.t :=
  if Qle_bool 0 (confidence_score prediction)
     && Qle_bool (confidence_score prediction) 1
  then
    Return
      {| PredictionResponse.predicted_price_aed :=
           predicted_price_aed prediction;
         PredictionResponse.price_per_sqft_aed :=
           price_per_sqft_aed prediction;
         PredictionResponse.location_premium :=
           Some (location_premium prediction);
         PredictionResponse.confidence_score := confidence_score prediction;
         PredictionResponse.model_version := model_version prediction;
         PredictionResponse.prediction_timestamp :=
           prediction_timestamp prediction |}
  else Raise (Exception "validation error for PredictionResponse").

Record HealthResponse : Type := {
  status : string;
  model_loaded : bool;
  health_model_version : option string;
  uptime_seconds : option Q
}.

(** ** The endpoints (app/main.py) *)

Module main.

(** What a handler hands back to the framework. *)
Inductive outcome (A : Type) : Type :=
| Response (body : A)
| HTTPException (status_code : Z) (detail : string).

Arguments Response {A} body.
Arguments HTTPException {A} status_code detail.

Definition HTTP_500_INTERNAL_SERVER_ERROR : Z := 500.

Definition is_not_None {A : Type} (value : option A) : bool :=
  match value with
  | Some _ => true
  | None => false
  end.

(** [health_check()]; [time] is [time.time()] read during the call. *)
Definition health_check (conf : Settings) (w : os) (start_time time : Q)
    (model_instance : option self_t)
  : result (HealthResponse * option self_t) :=
  got <- get_model conf w model_instance ;;
  let model := fst got in
  let uptime := time - start_time in
  Return
    ({| status :=
          if is_not_None (DubaiRealEstateModel.model model)
          then "healthy" else "degraded";
        model_loaded := is_not_None (DubaiRealEstateModel.model model);
        health_model_version :=
          if is_not_None (DubaiRealEstateModel.model model)
          then Some (DubaiRealEstateModel.model_version model) else None;
        uptime_seconds := Some (round uptime 2) |},
     snd got).

(** The dict [model_info()] returns. *)
Record model_info_dict : Type := {
  info_model_version : string;
  info_model_loaded : bool;
  info_model_path : string;
  supported_locations : list string;
  supported_property_types : list string
}.

Definition model_info (conf : Settings) (w : os)
    (model_instance : option self_t)
  : result (model_info_dict * option self_t) :=
  got <- get_model conf w model_instance ;;
  let model := fst got in
  Return
    ({| info_model_version := DubaiRealEstateModel.model_version model;
        info_model_loaded := is_not_None (DubaiRealEstateModel.model model);
        info_model_path := MODEL_PATH conf;
        supported_locations :=
          ["dubai_marina"; "downtown"; "business_bay"; "jlt"; "jbr";
           "difc"; "palm_jumeirah"; "emirates_hills"; "arabian_ranches";
           "dubai_hills"; "motor_city"];
        supported_property_types :=
          ["apartment"; "villa"; "townhouse"; "studio"; "penthouse"] |},
     snd got).

(** The two prediction handlers; [request] is the validated request as
    its dict, [str] is Python's [str] on exceptions.  An exception of
    [get_model] leaves the global as it was. *)
Definition predict_sale_price (str : exn -> string) (conf : Settings)
    (w : os) (utcnow : string) (model_instance : option self_t)
    (request : request_dict)
  : outcome PredictionResponse.t * option self_t :=
  match get_model conf w model_instance with
  | Raise e =>
      (HTTPException HTTP_500_INTERNAL_SERVER_ERROR
         ("Prediction failed: " ++ str e),
       model_instance)
  | Return (model, model_instance') =>
      let request_dict := request in
      match prediction <- predict_sale_price model utcnow request_dict ;;
            PredictionResponse_of prediction with
      | Return response => (Response response, model_instance')
      | Raise e =>
          (HTTPException HTTP_500_INTERNAL_SERVER_ERROR
             ("Prediction failed: " ++ str e),
           model_instance')
      end
  end.

Definition predict_rent_price (str : exn -> string) (conf : Settings)
    (w : os) (utcnow : string) (model_instance : option self_t)
    (request : request_dict)
  : outcome PredictionResponse.t * option self_t :=
  match get_model conf w model_instance with
  | Raise e =>
      (HTTPException HTTP_500_INTERNAL_SERVER_ERROR
         ("Prediction failed: " ++ str e),
       model_instance)
  | Return (model, model_instance') =>
      let request_dict := request in
      match prediction <- predict_rent_price model utcnow request_dict ;;
            PredictionResponse_of prediction with
      | Return response => (Response response, model_instance')
      | Raise e =>
          (HTTPException HTTP_500_INTERNAL_SERVER_ERROR
             ("Prediction failed: " ++ str e),
           model_instance')
      end
  end.

End main.

(** ** Synthetic training data (app/train_model.py) *)

(** [d[key]]; the missing key raises KeyError, an [Exception]. *)
Definition getitem (d : gmap string Q) (key : string) : result Q :=
  match d !! key with
  | Some v => Return v
  | None => Raise (Exception ("KeyError: " ++ key))
  end.

(** [np.random.normal(loc, scale)]: a negative scale raises ValueError, an
    [Exception]; [sample] is the number drawn otherwise. *)
Definition np_random_normal (sample : Q -> Q -> Q) (loc scale : Q)
  : result Q :=
  if Qlt_bool scale 0 then Raise (Exception "ValueError: scale < 0")
  else Return (sample loc scale).

(** [max(a, b)]: the first of the largest. *)
Definition max (a b : Q) : Q := if Qlt_bool a b then b else a.

Module train_model.

(** What one turn of the loop draws from [np.random], in the order of the
    calls; a choice among [[0, 1]] is a bool, [normal] is the number
    [np.random.normal] draws for a location and a scale. *)
Record draws : Type := {
  location : string;
  property_type : string;
  bedrooms : Z;
  bathrooms : Z;
  area_sqft : Q;
  floor : Z;
  building_age : Z;
  has_parking : bool;
  has_balcony : bool;
  has_gym : bool;
  has_pool : bool;
  near_metro : bool;
  furnished : bool;
  normal : Q -> Q -> Q
}.

Definition locations : list string :=
  ["dubai_marina"; "downtown"; "business_bay"; "jlt"; "jbr";
   "difc"; "palm_jumeirah"; "emirates_hills"; "arabian_ranches";
   "dubai_hills"; "motor_city"].

Definition property_types : list string :=
  ["apartment"; "villa"; "townhouse"; "studio"; "penthouse"].

(** The body of the loop: the row appended to [data]. *)
Definition sample_row (d : draws) : result (list Q) :=
  let location_factors : gmap string Q :=
    list_to_map
      [("dubai_marina", 1.0); ("downtown", 1.2); ("business_bay", 1.1);
       ("jlt", 0.9); ("jbr", 1.0); ("difc", 1.3); ("palm_jumeirah", 1.4);
       ("emirates_hills", 1.2); ("arabian_ranches", 0.8); ("dubai_hills", 0.9);
       ("motor_city", 0.7)] in
  let property_factors : gmap string Q :=
    list_to_map
      [("apartment", 1.0); ("villa", 1.5); ("townhouse", 1.2);
       ("studio", 0.7); ("penthouse", 1.8)] in
  let bedrooms := inject_Z (bedrooms d) in
  let bathrooms := inject_Z (bathrooms d) in
  let area_sqft := area_sqft d in
  let floor := inject_Z (floor d) in
  let building_age := inject_Z (building_age d) in
  let has_parking := inject_Z (int (has_parking d)) in
  let has_balcony := inject_Z (int (has_balcony d)) in
  let has_gym := inject_Z (int (has_gym d)) in
  let has_pool := inject_Z (int (has_pool d)) in
  let near_metro := inject_Z (int (near_metro d)) in
  let furnished := inject_Z (int (furnished d)) in
  let base_price := 500000 in
  location_factor <- getitem location_factors (location d) ;;
  property_factor <- getitem property_factors (property_type d) ;;
  let price :=
    base_price * location_factor * property_factor
    + bedrooms * 100000
    + bathrooms * 50000
    + (area_sqft / 1000) * 300000
    + (50 - floor) * 2000
    + (20 - building_age) * 5000
    + has_parking * 50000
    + has_balcony * 30000
    + has_gym * 40000
    + has_pool * 60000
    + near_metro * 30000
    + furnished * 80000 in
  noise <- np_random_normal (normal d) 0 (price * 0.1) ;;
  let price := price + noise in
  let price := max 200000 price in
  let location_encoded := location_factor in
  let property_encoded := property_factor in
  Return
    [ bedrooms; bathrooms; area_sqft; location_encoded; property_encoded;
      floor / 50.0; building_age / 50.0; has_parking; has_balcony;
      has_gym; has_pool; near_metro; furnished; price ].



(** [df[feature_columns].values] and [df["price"].values] on one row. *)
Definition feature_columns (row : list Q) : list Q := take 13 row.


End train_model.

(** The request that carries the attributes of a training draw. *)
Definition request_of_draws (d : train_model.draws) : request_dict :=
  {| property_type := Some (train_model.property_type d);
     bedrooms := Some (train_model.bedrooms d);
     bathrooms := Some (train_model.bathrooms d);
     area_sqft := Some (train_model.area_sqft d);
     location := Some (train_model.location d);
     floor := Some (train_model.floor d);
     building_age_years := Some (train_model.building_age d);
     has_parking := Some (train_model.has_parking d);
     has_balcony := Some (train_model.has_balcony d);
     has_gym := Some (train_model.has_gym d);
     has_pool := Some (train_model.has_pool d);
     near_metro := Some (train_model.near_metro d);
     furnished := Some (train_model.furnished d);
     contract_type := None |}.

(** *** Further vocabulary and examples *)

(** An artifact that always raises, one that returns no prediction, and an
    environment whose artifact loads as the latter. *)
Definition raising_artifact (e : exn) : list (list Q) -> result (list Q) :=
  fun _ => Raise e.

Definition silent_artifact : list (list Q) -> result (list Q) :=
  fun _ => Return [].

Definition os_with_artifact : os :=
  {| getenv := fun _ => None;
     path_exists := fun _ => true;
     joblib_load := fun _ => Return silent_artifact |}.

Definition instance_of (predict : list (list Q) -> result (list Q)) : self_t :=
  {| DubaiRealEstateModel.model_path :=
       "/app/models/dubai_realestate_model.pkl";
     DubaiRealEstateModel.model := Some (Artifact predict);
     DubaiRealEstateModel.model_version := "v1.0.0" |}.

(** A request with a floor below the ground, which only the rent schema
    accepts. *)
Definition basement_flat : request_dict :=
  {| property_type := Some "apartment";
     bedrooms := Some 1%Z;
     bathrooms := Some 1%Z;
     area_sqft := Some 700;
     location := Some "jbr";
     floor := Some (-2)%Z;
     building_age_years := Some 3%Z;
     has_parking := None;
     has_balcony := None;
     has_gym := None;
     has_pool := None;
     near_metro := None;
     furnished := None;
     contract_type := None |}.

(** The response made of a prediction dict. *)
Definition response_of (prediction : PredictionResult)
  : PredictionResponse.t :=
  {| PredictionResponse.predicted_price_aed := predicted_price_aed prediction;
     PredictionResponse.price_per_sqft_aed := price_per_sqft_aed prediction;
     PredictionResponse.location_premium :=
       Some (location_premium prediction);
     PredictionResponse.confidence_score := confidence_score prediction;
     PredictionResponse.model_version := model_version prediction;
     PredictionResponse.prediction_timestamp :=
       prediction_timestamp prediction |}.

(** What the calls of [np.random] in a turn of the loop can return: a
    member of each list, and numbers within the bounds given to [randint]
    and [uniform]. *)
Definition drawn (d : train_model.draws) : Prop :=
  train_model.location d ∈ train_model.locations /\
  train_model.property_type d ∈ train_model.property_types /\
  (0 <= train_model.bedrooms d < 6)%Z /\
  (1 <= train_model.bathrooms d < 4)%Z /\
  500 <= train_model.area_sqft d <= 3000 /\
  (0 <= train_model.floor d < 50)%Z /\
  (0 <= train_model.building_age d < 20)%Z.

(** The price a turn of the loop labels its row with. *)
Definition label_of (d : train_model.draws) : Q :=
  let price :=
    500000 * spec_location_factor (train_model.location d)
    * spec_property_factor (train_model.property_type d)
    + inject_Z (train_model.bedrooms d) * 100000
    + inject_Z (train_model.bathrooms d) * 50000
    + (train_model.area_sqft d / 1000) * 300000
    + (50 - inject_Z (train_model.floor d)) * 2000
    + (20 - inject_Z (train_model.building_age d)) * 5000
    + inject_Z (int (train_model.has_parking d)) * 50000
    + inject_Z (int (train_model.has_balcony d)) * 30000
    + inject_Z (int (train_model.has_gym d)) * 40000
    + inject_Z (int (train_model.has_pool d)) * 60000
    + inject_Z (int (train_model.near_metro d)) * 30000
    + inject_Z (int (train_model.furnished d)) * 80000 in
  max 200000 (price + train_model.normal d 0 (price * 0.1)).

(** A draw with the attributes of the marina apartment and no noise, and
    the same on the ground floor of a new building. *)
Definition marina_draws : train_model.draws :=
  {| train_model.location := "dubai_marina";
     train_model.property_type := "apartment";
     train_model.bedrooms := 2;
     train_model.bathrooms := 2;
     train_model.area_sqft := 1200;
     train_model.floor := 10;
     train_model.building_age := 5;
     train_model.has_parking := true;
     train_model.has_balcony := false;
     train_model.has_gym := false;
     train_model.has_pool := false;
     train_model.near_metro := false;
     train_model.furnished := false;
     train_model.normal := fun loc scale => loc |}.

Definition ground_floor_draws : train_model.draws :=
  {| train_model.location := "dubai_marina";
     train_model.property_type := "apartment";
     train_model.bedrooms := 2;
     train_model.bathrooms := 2;
     train_model.area_sqft := 1200;
     train_model.floor := 0;
     train_model.building_age := 0;
     train_model.has_parking := true;
     train_model.has_balcony := false;
     train_model.has_gym := false;
     train_model.has_pool := false;
     train_model.near_metro := false;
     train_model.furnished := false;
     train_model.normal := fun loc scale => loc |}.

(** The dummy model is the one in use: the stored instance holds it, or no
    instance is stored yet and the artifact is missing or does not load. *)
Definition fallback_in_use (conf : Settings) (w : os)
    (model_instance : option self_t) : Prop :=
  match model_instance with
  | Some m => DubaiRealEstateModel.model m = Some DummyModel
  | None =>
      path_exists w (MODEL_PATH conf) = false \/
      (exists e, joblib_load w (MODEL_PATH conf) = Raise e)
  end.

(** * Properties *)

(** ** Comparison and rounding *)

Lemma Qlt_bool_iff (x y : Q) : Qlt_bool x y = true <-> x < y.
Proof.
  unfold Qlt_bool. rewrite negb_true_iff.
  split; intros H.
  - apply Qnot_le_lt. intros Hle. apply Qle_bool_iff in Hle. congruence.
  - destruct (Qle_bool y x) eqn:E; [|reflexivity].
    apply Qle_bool_iff in E. apply Qlt_not_le in H. contradiction.
Qed.

Lemma round_half_even_close (x : Q) :
  - (1 # 2) <= inject_Z (round_half_even x) - x <= 1 # 2.
Proof.
  unfold round_half_even.
  pose proof (Qfloor_le x) as Hlo.
  pose proof (Qlt_floor x) as Hhi.
  rewrite inject_Z_plus in Hhi. change (inject_Z 1) with 1 in Hhi.
  destruct (Qlt_bool (x - inject_Z (Qfloor x)) (1 # 2)) eqn:E1.
  - apply Qlt_bool_iff in E1. lra.
  - destruct (Qlt_bool (1 # 2) (x - inject_Z (Qfloor x))) eqn:E2.
    + apply Qlt_bool_iff in E2.
      rewrite inject_Z_plus. change (inject_Z 1) with 1. lra.
    + assert (H1 : ~ x - inject_Z (Qfloor x) < 1 # 2)
        by (rewrite <- Qlt_bool_iff; congruence).
      assert (H2 : ~ (1 # 2) < x - inject_Z (Qfloor x))
        by (rewrite <- Qlt_bool_iff; congruence).
      destruct (Z.even (Qfloor x)).
      * lra.
      * rewrite inject_Z_plus. change (inject_Z 1) with 1. lra.
Qed.

(** Rounding to two decimals moves a number by at most half a cent. *)
Lemma round_2_close (x : Q) : - (1 # 200) <= round x 2 - x <= 1 # 200.
Proof.
  unfold round.
  change (10 ^ Z.of_nat 2)%Z with 100%Z.
  change (Z.to_pos 100) with 100%positive.
  pose proof (round_half_even_close (x * inject_Z 100)) as H.
  rewrite (Qmake_Qdiv (round_half_even (x * inject_Z 100)) 100).
  change (inject_Z 100) with 100 in *.
  change (inject_Z (Z.pos 100)) with 100.
  set (n := inject_Z (round_half_even (x * 100))) in *.
  assert (E : n / 100 == n * (1 # 100)) by field.
  rewrite E. lra.
Qed.

(** ** How the two predictions are assembled *)

Lemma truediv_Return (x y : Q) : ~ y == 0 -> truediv x y = Return (x / y).
Proof.
  intros Hy. unfold truediv.
  destruct (Qeq_bool y 0) eqn:E; [|reflexivity].
  apply Qeq_bool_iff in E. contradiction.
Qed.

Lemma truediv_Raise (x y : Q) : y == 0 -> truediv x y = Raise ZeroDivisionError.
Proof.
  intros Hy. unfold truediv.
  apply Qeq_bool_iff in Hy. rewrite Hy. reflexivity.
Qed.

(** A sale result is built from the first prediction of the model. *)
Lemma predict_sale_price_Return self utcnow request_data s :
  predict_sale_price self utcnow request_data = Return s ->
  exists predictions prediction,
    (exists features,
       encode_features self request_data = Return features /\
       model_predict (DubaiRealEstateModel.model self) features
       = Return predictions) /\
    index predictions 0 = Return prediction /\
    s = {| predicted_price_aed := round prediction 2;
           price_per_sqft_aed :=
             round (if Qlt_bool 0 (area_of request_data)
                    then prediction / area_of request_data else 0) 2;
           location_premium :=
             round (_get_location_factor self
                      (get (location request_data) "dubai_marina") - 1.0) 2;
           confidence_score := 0.85;
           model_version := DubaiRealEstateModel.model_version self;
           prediction_timestamp := utcnow ++ "Z";
           rental_type := None |}.
Proof.
  unfold predict_sale_price. intros H.
  destruct (encode_features self request_data) as [features|e] eqn:He;
    [|discriminate].
  cbn [bind] in H.
  destruct (model_predict _ _) as [predictions|e] eqn:Hm; [|discriminate].
  cbn [bind] in H.
  destruct (index predictions 0) as [prediction|e] eqn:Hi; [|discriminate].
  cbn [bind] in H. injection H as <-.
  exists predictions, prediction. eauto.
Qed.

(** [predict_rent_price] once its sale prediction is known. *)
Lemma predict_rent_price_after_sale self utcnow request_data s :
  predict_sale_price self utcnow request_data = Return s ->
  predict_rent_price self utcnow request_data =
    (per_sqft <- truediv (rent_of s (contract_type request_data))
                   (area_of request_data) ;;
     Return (overlay s (round (rent_of s (contract_type request_data)) 2)
               (round per_sqft 2)
               (rental_type_of (contract_type request_data)))).
Proof.
  intros Hs. unfold predict_rent_price, rent_of, rental_type_of, area_of.
  rewrite Hs. cbn [bind].
  destruct (String.eqb _ _); reflexivity.
Qed.

Lemma predict_rent_price_Return self utcnow request_data res :
  predict_rent_price self utcnow request_data = Return res ->
  exists s,
    predict_sale_price self utcnow request_data = Return s /\
    ~ area_of request_data == 0 /\
    res = overlay s (round (rent_of s (contract_type request_data)) 2)
            (round (rent_of s (contract_type request_data)
                    / area_of request_data) 2)
            (rental_type_of (contract_type request_data)).
Proof.
  intros H.
  destruct (predict_sale_price self utcnow request_data) as [s|e] eqn:Hs.
  - rewrite (predict_rent_price_after_sale _ _ _ _ Hs) in H.
    exists s. split; [reflexivity|].
    unfold truediv in H.
    destruct (Qeq_bool (area_of request_data) 0) eqn:E; [discriminate|].
    cbn [bind] in H. injection H as <-.
    split; [|reflexivity].
    intros Hz. apply Qeq_bool_iff in Hz. congruence.
  - unfold predict_rent_price in H. rewrite Hs in H. discriminate.
Qed.

(** The sale path never looks at [contract_type]. *)
Lemma predict_sale_price_contract_type self utcnow request_data c :
  predict_sale_price self utcnow (with_contract_type request_data c) =
  predict_sale_price self utcnow request_data.
Proof. reflexivity. Qed.

(** Two roundings of the same price, one of them per unit of area. *)
Lemma rounded_ratio_close (price area : Q) :
  0 < area ->
  Qabs (round (price / area) 2 * area - round price 2)
    <= (1 # 200) * (area + 1).
Proof.
  intros Ha.
  pose proof (round_2_close (price / area)) as [H1 H2].
  pose proof (round_2_close price) as [H3 H4].
  assert (E : price / area * area == price) by (field; lra).
  assert (Hd : forall rq rp q : Q,
             q * area == price ->
             rq * area - rp == (rq - q) * area - (rp - price)).
  { intros rq rp q Hq. rewrite <- Hq. ring. }
  rewrite (Hd _ _ _ E).
  set (d := round (price / area) 2 - price / area) in *.
  assert (Hlo : - (1 # 200) * area <= d * area)
    by (apply Qmult_le_compat_r; lra).
  assert (Hhi : d * area <= (1 # 200) * area)
    by (apply Qmult_le_compat_r; lra).
  apply Qabs_Qle_condition. lra.
Qed.

(** ** The worked example on the dummy model *)

Lemma marina_sale_computed utcnow c :
  predict_sale_price fallback_instance utcnow (marina_apartment c)
  = Return (marina_sale utcnow).
Proof. vm_compute. reflexivity. Qed.

(** ** Price per square foot *)

(** C1, as stated, fails: on the dummy model the 1200 sqft marina apartment
    is priced 1282000.00 and its price per square foot is 1068.33, which is
    not 1282000 / 1200: the two fields are rounded separately. *)
Lemma price_per_sqft_not_exact :
  predict_sale_price fallback_instance "2024-01-01T00:00:00"
    (marina_apartment None)
  = Return (marina_sale "2024-01-01T00:00:00") /\
  ~ price_per_sqft_aed (marina_sale "2024-01-01T00:00:00")
    == predicted_price_aed (marina_sale "2024-01-01T00:00:00")
       / area_of (marina_apartment None).
Proof.
  split.
  - apply marina_sale_computed.
  - intros H. vm_compute in H. discriminate.
Qed.

(** C1, amended: for a positive area, a result of [predict_sale_price] or of
    [predict_rent_price] holds the two-decimal rounding of one price in
    [predicted_price_aed] and the two-decimal rounding of that same price
    divided by the area (the one [area_sqft] of the request, 1000 when the
    key is missing) in [price_per_sqft_aed]; so the two fields agree up to
    the rounding: price_per_sqft_aed * area differs from predicted_price_aed
    by at most 0.005 * (area + 1). *)
Theorem price_per_sqft_rounded self utcnow request_data res :
  0 < area_of request_data ->
  predict_sale_price self utcnow request_data = Return res \/
  predict_rent_price self utcnow request_data = Return res ->
  exists price,
    predicted_price_aed res = round price 2 /\
    price_per_sqft_aed res = round (price / area_of request_data) 2 /\
    Qabs (price_per_sqft_aed res * area_of request_data
          - predicted_price_aed res)
      <= (1 # 200) * (area_of request_data + 1).
Proof.
  intros Ha [Hs|Hr].
  - apply predict_sale_price_Return in Hs
      as (predictions & prediction & _ & _ & ->).
    apply Qlt_bool_iff in Ha as Hb. rewrite Hb. cbn [predicted_price_aed
      price_per_sqft_aed].
    exists prediction. repeat split.
    now apply rounded_ratio_close.
  - apply predict_rent_price_Return in Hr as (s & _ & _ & ->).
    cbn [overlay predicted_price_aed price_per_sqft_aed].
    exists (rent_of s (contract_type request_data)). repeat split.
    now apply rounded_ratio_close.
Qed.

Lemma price_per_sqft_rounded_witness :
  exists price,
    predicted_price_aed (marina_sale "2024-01-01T00:00:00") = round price 2 /\
    price_per_sqft_aed (marina_sale "2024-01-01T00:00:00")
    = round (price / area_of (marina_apartment None)) 2 /\
    Qabs (price_per_sqft_aed (marina_sale "2024-01-01T00:00:00")
          * area_of (marina_apartment None)
          - predicted_price_aed (marina_sale "2024-01-01T00:00:00"))
      <= (1 # 200) * (area_of (marina_apartment None) + 1).
Proof.
  apply (price_per_sqft_rounded fallback_instance "2024-01-01T00:00:00"
           (marina_apartment None)).
  - reflexivity.
  - left. vm_compute. reflexivity.
Defined.

(** ** The factor tables *)

(** One entry of a dict literal against one test of the worded table. *)
Ltac table_entry key :=
  lazymatch goal with
  | |- context [String.eqb key ?k] =>
      rewrite list_to_map_cons;
      destruct (String.eqb_spec key k) as [->|?];
      [vm_compute; reflexivity | rewrite lookup_insert_ne by congruence]
  end.

Lemma location_map_get (loc : string) :
  get ((list_to_map
          [("dubai_marina", 1.0); ("downtown", 1.2); ("business_bay", 1.1);
           ("jlt", 0.9); ("jbr", 1.0); ("difc", 1.3); ("palm_jumeirah", 1.4);
           ("emirates_hills", 1.2); ("arabian_ranches", 0.8);
           ("dubai_hills", 0.9); ("motor_city", 0.7)] : gmap string Q) !! loc)
    1.0
  = spec_location_factor loc.
Proof.
  unfold spec_location_factor.
  do 11 table_entry loc.
  rewrite list_to_map_nil, lookup_empty. reflexivity.
Qed.

Lemma property_type_map_get (type : string) :
  get ((list_to_map
          [("apartment", 1.0); ("villa", 1.5); ("townhouse", 1.2);
           ("studio", 0.7); ("penthouse", 1.8)] : gmap string Q) !! type)
    1.0
  = spec_property_factor type.
Proof.
  unfold spec_property_factor.
  do 5 table_entry type.
  rewrite list_to_map_nil, lookup_empty. reflexivity.
Qed.

Lemma _get_location_factor_spec self loc :
  _get_location_factor self loc = spec_location_factor loc.
Proof. apply location_map_get. Qed.

(** The falsy default: the default 5 of [get] is never reached; the
    division raises only for an integer that no float holds. *)
Lemma normalized_spec (value : option Z) :
  float_ok value = true ->
  (if truthy value then int_truediv (get value 5%Z) 50.0 else Return 0.1)
  = Return (spec_normalized value).
Proof.
  destruct value as [v|]; [|reflexivity].
  cbn [float_ok truthy get spec_normalized]. intros Hv.
  destruct (v =? 0)%Z; [reflexivity|].
  cbn [negb]. unfold int_truediv, float_of_int. rewrite Hv. reflexivity.
Qed.

Lemma normalized_overflow (value : option Z) :
  float_ok value = false ->
  (if truthy value then int_truediv (get value 5%Z) 50.0 else Return 0.1)
  = Raise OverflowError.
Proof.
  destruct value as [v|]; [|discriminate].
  cbn [float_ok truthy get]. intros Hv.
  destruct (Z.eqb_spec v 0) as [->|_]; [discriminate|].
  cbn [negb]. unfold int_truediv, float_of_int. rewrite Hv. reflexivity.
Qed.

(** [encode_features] returns the one row the specification lists, when
    the two divisions have operands that a float holds. *)
Lemma encode_features_row self request_data :
  float_ok (floor request_data) = true ->
  float_ok (building_age_years request_data) = true ->
  encode_features self request_data
  = Return [spec_feature_vector request_data].
Proof.
  intros Hf Ha. unfold encode_features, spec_feature_vector.
  cbv zeta.
  rewrite location_map_get, property_type_map_get.
  rewrite (normalized_spec _ Hf), (normalized_spec _ Ha).
  reflexivity.
Qed.

Lemma encode_features_overflow self request_data :
  float_ok (floor request_data) = false \/
  float_ok (building_age_years request_data) = false ->
  encode_features self request_data = Raise OverflowError.
Proof.
  intros H. unfold encode_features. cbv zeta.
  destruct (float_ok (floor request_data)) eqn:Hf.
  - destruct H as [H|Ha]; [discriminate|].
    rewrite (normalized_spec _ Hf), (normalized_overflow _ Ha). reflexivity.
  - rewrite (normalized_overflow _ Hf). reflexivity.
Qed.

(** A request that [encode_features] encodes, is encoded as listed. *)
Lemma encode_features_Return self request_data features :
  encode_features self request_data = Return features ->
  float_ok (floor request_data) = true /\
  float_ok (building_age_years request_data) = true /\
  features = [spec_feature_vector request_data].
Proof.
  intros H.
  destruct (float_ok (floor request_data)) eqn:Hf;
    [|rewrite encode_features_overflow in H by (left; exact Hf);
      discriminate].
  destruct (float_ok (building_age_years request_data)) eqn:Ha;
    [|rewrite encode_features_overflow in H by (right; exact Ha);
      discriminate].
  rewrite (encode_features_row _ _ Hf Ha) in H. injection H as <-.
  repeat split.
Qed.

(** ** The dummy model *)

Lemma DummyModel_predict_encoded request_data :
  exists price,
    DummyModel_predict [spec_feature_vector request_data] = Return [price] /\
    price == spec_fallback_price (spec_feature_vector request_data).
Proof.
  eexists. split.
  - reflexivity.
  - unfold spec_fallback_price, spec_feature_vector, feature, sum.
    cbn [nth drop fold_left]. field.
Qed.

(** On the dummy model the sale path returns for every request that is
    encoded. *)
Lemma predict_sale_price_fallback self utcnow request_data :
  DubaiRealEstateModel.model self = Some DummyModel ->
  float_ok (floor request_data) = true ->
  float_ok (building_age_years request_data) = true ->
  exists price res,
    price == spec_fallback_price (spec_feature_vector request_data) /\
    predict_sale_price self utcnow request_data = Return res /\
    predicted_price_aed res = round price 2.
Proof.
  intros Hm Hf Ha.
  destruct (DummyModel_predict_encoded request_data) as (price & Hp & Heq).
  exists price. eexists. split; [exact Heq|].
  unfold predict_sale_price.
  rewrite (encode_features_row _ _ Hf Ha), Hm. cbn [bind model_predict].
  rewrite Hp. cbn [bind index lookup list_lookup].
  split; reflexivity.
Qed.



(** ** Loading the model *)

(** Whatever the environment, [__init__] returns an instance that has a
    model and the version read from MODEL_VERSION. *)
Lemma __init___returns w path :
  exists self,
    __init__ w path = Return self /\
    DubaiRealEstateModel.model self <> None /\
    DubaiRealEstateModel.model_path self = path /\
    DubaiRealEstateModel.model_version self
    = get (getenv w "MODEL_VERSION") "v1.0.0".
Proof.
  unfold __init__, load_model. cbn [DubaiRealEstateModel.model_path].
  destruct (path_exists w path).
  - destruct (joblib_load w path) as [m|e];
      cbn [bind try_except]; eexists; (split; [reflexivity|]);
      cbn; repeat split; discriminate.
  - cbn [try_except]. eexists. split; [reflexivity|].
    cbn. repeat split; discriminate.
Qed.

(** C3, as stated, fails on its last clause: without an artifact and with
    the variable MODEL_VERSION set to the empty string, initialization
    installs the dummy model and the version is the empty string. *)
Lemma version_can_be_empty :
  path_exists os_empty_version "/app/models/dubai_realestate_model.pkl"
  = false /\
  exists self,
    __init__ os_empty_version "/app/models/dubai_realestate_model.pkl"
    = Return self /\
    DubaiRealEstateModel.model self = Some DummyModel /\
    DubaiRealEstateModel.model_version self = "".
Proof.
  split; [reflexivity|].
  eexists. split; [reflexivity|]. split; reflexivity.
Qed.

(** C3, amended: when the artifact path does not exist, or joblib raises an
    exception (one derived from Exception, which [load_model] catches)
    while reading it, [__init__] raises nothing and returns an instance
    holding the dummy model, which keeps serving: every request whose floor
    and building age a float holds gets a sale prediction from it (a larger
    integer raises OverflowError in the encoding, before any model is
    asked); the version is the value of MODEL_VERSION, "v1.0.0" when the
    variable is unset, hence non-empty unless the variable is set to the
    empty string. *)
Theorem load_model_falls_back w path :
  path_exists w path = false \/ (exists e, joblib_load w path = Raise e) ->
  exists self,
    __init__ w path = Return self /\
    DubaiRealEstateModel.model self = Some DummyModel /\
    DubaiRealEstateModel.model_version self
    = get (getenv w "MODEL_VERSION") "v1.0.0" /\
    (getenv w "MODEL_VERSION" <> Some "" ->
     DubaiRealEstateModel.model_version self <> "") /\
    (forall utcnow request_data,
       float_ok (floor request_data) = true ->
       float_ok (building_age_years request_data) = true ->
       exists res,
         predict_sale_price self utcnow request_data = Return res /\
         model_version res = DubaiRealEstateModel.model_version self) /\
    (forall utcnow request_data,
       float_ok (floor request_data) = false \/
       float_ok (building_age_years request_data) = false ->
       predict_sale_price self utcnow request_data = Raise OverflowError).
Proof.
  intros H.
  assert (Hinit : __init__ w path = Return
            {| DubaiRealEstateModel.model_path := path;
               DubaiRealEstateModel.model := Some DummyModel;
               DubaiRealEstateModel.model_version :=
                 get (getenv w "MODEL_VERSION") "v1.0.0" |}).
  { unfold __init__, load_model. cbn [DubaiRealEstateModel.model_path].
    destruct (path_exists w path) eqn:Hp.
    - destruct H as [H|[e He]]; [discriminate|].
      rewrite He. reflexivity.
    - reflexivity. }
  eexists. split; [exact Hinit|].
  cbn [DubaiRealEstateModel.model DubaiRealEstateModel.model_version].
  split; [reflexivity|]. split; [reflexivity|]. split; [|split].
  - destruct (getenv w "MODEL_VERSION") as [v|]; cbn [get].
    + intros Hv ->. now apply Hv.
    + discriminate.
  - intros utcnow request_data Hf Ha.
    edestruct (predict_sale_price_fallback) as (price & res & _ & Hs & _);
      [| exact Hf | exact Ha | exists res; split; [exact Hs|]].
    + reflexivity.
    + apply predict_sale_price_Return in Hs as (? & ? & _ & _ & ->).
      reflexivity.
  - intros utcnow request_data Hover.
    unfold predict_sale_price.
    rewrite (encode_features_overflow _ _ Hover). reflexivity.
Qed.

Lemma load_model_falls_back_witness :
  exists self,
    __init__ os_corrupt "/app/models/dubai_realestate_model.pkl"
    = Return self /\
    DubaiRealEstateModel.model self = Some DummyModel /\
    DubaiRealEstateModel.model_version self
    = get (getenv os_corrupt "MODEL_VERSION") "v1.0.0" /\
    (getenv os_corrupt "MODEL_VERSION" <> Some "" ->
     DubaiRealEstateModel.model_version self <> "") /\
    (forall utcnow request_data,
       float_ok (floor request_data) = true ->
       float_ok (building_age_years request_data) = true ->
       exists res,
         predict_sale_price self utcnow request_data = Return res /\
         model_version res = DubaiRealEstateModel.model_version self) /\
    (forall utcnow request_data,
       float_ok (floor request_data) = false \/
       float_ok (building_age_years request_data) = false ->
       predict_sale_price self utcnow request_data = Raise OverflowError).
Proof.
  apply (load_model_falls_back os_corrupt
           "/app/models/dubai_realestate_model.pkl").
  right. exists (Exception "invalid load key"). reflexivity.
Defined.

(** ** Encoding *)

(** C4, as stated, fails for a positive value that no float holds: for the
    floor 10^400 there is no encoded feature, the division [floor / 50.0]
    raises OverflowError. *)
Lemma huge_floor_is_not_encoded :
  floor (marina_on_floor (10 ^ 400)) = Some (10 ^ 400)%Z /\
  (0 < 10 ^ 400)%Z /\
  encode_features fallback_instance (marina_on_floor (10 ^ 400))
  = Raise OverflowError.
Proof.
  split; [reflexivity|]. split; [reflexivity|].
  vm_compute. reflexivity.
Qed.

(** C4, amended: when [floor] and [building_age_years] are integers that a
    float holds (of magnitude below 2^1024 - 2^970), the feature of
    position 6, index 5, is 0.1 when [floor] is absent or 0 and
    [floor / 50.0] when [floor] is positive; and so the feature of
    position 7, index 6, for [building_age_years].  For a value of either
    field from 2^1024 - 2^970 on, the encoding raises OverflowError. *)
Theorem zero_is_not_provided self request_data :
  (float_ok (floor request_data) = true ->
   float_ok (building_age_years request_data) = true ->
   exists row,
     encode_features self request_data = Return [row] /\
     (floor request_data = None \/ floor request_data = Some 0%Z ->
      row !! 5%nat = Some 0.1) /\
     (forall v, floor request_data = Some v -> (0 < v)%Z ->
      row !! 5%nat = Some (inject_Z v / 50.0)) /\
     (building_age_years request_data = None \/
      building_age_years request_data = Some 0%Z ->
      row !! 6%nat = Some 0.1) /\
     (forall v, building_age_years request_data = Some v -> (0 < v)%Z ->
      row !! 6%nat = Some (inject_Z v / 50.0))) /\
  (forall v,
     floor request_data = Some v \/ building_age_years request_data = Some v ->
     (float_max_int <= v)%Z ->
     encode_features self request_data = Raise OverflowError).
Proof.
  split.
  - intros Hf Ha.
    exists (spec_feature_vector request_data).
    split; [apply (encode_features_row _ _ Hf Ha)|].
    unfold spec_feature_vector, spec_normalized. cbn [lookup list_lookup].
    repeat split.
    + intros [-> | ->]; reflexivity.
    + intros v -> Hv. destruct (Z.eqb_spec v 0); [lia|reflexivity].
    + intros [-> | ->]; reflexivity.
    + intros v -> Hv. destruct (Z.eqb_spec v 0); [lia|reflexivity].
  - intros v Hv Hbig.
    assert (Hover : float_ok (Some v) = false).
    { cbn [float_ok]. apply Z.ltb_ge. lia. }
    apply encode_features_overflow.
    destruct Hv as [-> | ->]; [left|right]; exact Hover.
Qed.

Lemma zero_is_not_provided_witness :
  (exists row,
     encode_features fallback_instance ground_floor_studio = Return [row] /\
     row !! 5%nat = Some 0.1 /\
     row !! 6%nat = Some (inject_Z 12 / 50.0)) /\
  encode_features fallback_instance (marina_on_floor (2 ^ 1024))
  = Raise OverflowError.
Proof.
  split.
  - destruct (zero_is_not_provided fallback_instance ground_floor_studio)
      as (Hrange & _).
    destruct (Hrange eq_refl eq_refl)
      as (row & Hrow & Hfloor & _ & _ & Hage).
    exists row. split; [exact Hrow|]. split.
    + apply Hfloor. right. reflexivity.
    + apply (Hage 12%Z); [reflexivity|lia].
  - destruct (zero_is_not_provided fallback_instance
                (marina_on_floor (2 ^ 1024))) as (_ & Hover).
    apply (Hover (2 ^ 1024)%Z).
    + left. reflexivity.
    + vm_compute. discriminate.
Defined.

(** C7, as stated, fails: the marina apartment in a building of age 2^1024
    is a valid record, accepted by the sale schema, and [encode_features]
    returns no vector for it but raises OverflowError. *)
Lemma old_building_is_not_encoded :
  SalePredictionRequest (marina_of_age (2 ^ 1024))
  = Some (marina_of_age (2 ^ 1024)) /\
  encode_features fallback_instance (marina_of_age (2 ^ 1024))
  = Raise OverflowError.
Proof.
  split; vm_compute; reflexivity.
Qed.

(** C7, amended: for a record whose floor and building age a float holds,
    [encode_features] returns one row of exactly 13 numbers: bedrooms,
    bathrooms, area_sqft, the location factor, the property factor, the
    normalized floor, the normalized age, then the six amenity flags, 1 for
    true and 0 for false (parking counts as true when its key is missing,
    the others as false); the row depends on the request alone, not on the
    instance.  For another record it raises OverflowError, on every
    instance. *)
Theorem encode_features_order self request_data :
  (float_ok (floor request_data) = true ->
   float_ok (building_age_years request_data) = true ->
   exists row,
     encode_features self request_data = Return [row] /\
     length row = 13%nat /\
     row !! 0%nat = Some (inject_Z (get (bedrooms request_data) 0%Z)) /\
     row !! 1%nat = Some (inject_Z (get (bathrooms request_data) 0%Z)) /\
     row !! 2%nat = Some (get (area_sqft request_data) 1000) /\
     row !! 3%nat
     = Some (spec_location_factor
               (get (location request_data) "dubai_marina")) /\
     row !! 4%nat
     = Some (spec_property_factor
               (get (property_type request_data) "apartment")) /\
     row !! 5%nat = Some (spec_normalized (floor request_data)) /\
     row !! 6%nat
     = Some (spec_normalized (building_age_years request_data)) /\
     row !! 7%nat
     = Some (if get (has_parking request_data) true then 1 else 0) /\
     row !! 8%nat
     = Some (if get (has_balcony request_data) false then 1 else 0) /\
     row !! 9%nat
     = Some (if get (has_gym request_data) false then 1 else 0) /\
     row !! 10%nat
     = Some (if get (has_pool request_data) false then 1 else 0) /\
     row !! 11%nat
     = Some (if get (near_metro request_data) false then 1 else 0) /\
     row !! 12%nat
     = Some (if get (furnished request_data) false then 1 else 0) /\
     (forall self', encode_features self' request_data = Return [row])) /\
  (float_ok (floor request_data) = false \/
   float_ok (building_age_years request_data) = false ->
   forall self', encode_features self' request_data = Raise OverflowError).
Proof.
  split.
  - intros Hf Ha.
    exists (spec_feature_vector request_data).
    split; [apply (encode_features_row _ _ Hf Ha)|].
    unfold spec_feature_vector. cbn [length lookup list_lookup].
    do 8 (split; [reflexivity|]).
    split; [destruct (get (has_parking request_data) true); reflexivity|].
    split; [destruct (get (has_balcony request_data) false); reflexivity|].
    split; [destruct (get (has_gym request_data) false); reflexivity|].
    split; [destruct (get (has_pool request_data) false); reflexivity|].
    split; [destruct (get (near_metro request_data) false); reflexivity|].
    split; [destruct (get (furnished request_data) false); reflexivity|].
    intros self'. apply (encode_features_row _ _ Hf Ha).
  - intros Hover self'. apply encode_features_overflow. exact Hover.
Qed.

Lemma encode_features_order_witness :
  (exists row,
     encode_features fallback_instance ground_floor_studio = Return [row] /\
     length row = 13%nat /\
     row !! 7%nat = Some 1 /\
     row !! 8%nat = Some 0) /\
  encode_features fallback_instance (marina_of_age (- 2 ^ 1024))
  = Raise OverflowError.
Proof.
  split.
  - destruct (encode_features_order fallback_instance ground_floor_studio)
      as (Hrange & _).
    destruct (Hrange eq_refl eq_refl)
      as (row & Hrow & Hlen & _ & _ & _ & _ & _ & _ & _ & Hparking
          & Hbalcony & _).
    exists row. split; [exact Hrow|]. split; [exact Hlen|].
    split; [exact Hparking|exact Hbalcony].
  - destruct (encode_features_order fallback_instance
                (marina_of_age (- 2 ^ 1024))) as (_ & Hover).
    apply Hover. right. vm_compute. reflexivity.
Defined.

(** ** Rent *)



(** Rent of a request whose sale prediction returned and whose area is not
    zero. *)
Lemma predict_rent_price_returns self utcnow request_data s :
  predict_sale_price self utcnow request_data = Return s ->
  ~ area_of request_data == 0 ->
  predict_rent_price self utcnow request_data
  = Return (overlay s (round (rent_of s (contract_type request_data)) 2)
              (round (rent_of s (contract_type request_data)
                      / area_of request_data) 2)
              (rental_type_of (contract_type request_data))).
Proof.
  intros Hs Ha.
  rewrite (predict_rent_price_after_sale _ _ _ _ Hs).
  rewrite truediv_Return by exact Ha. reflexivity.
Qed.





(** C8: a rent result is the sale result of the same call with
    [predicted_price_aed] and [price_per_sqft_aed] replaced and
    [rental_type] added; [location_premium], [confidence_score],
    [model_version] and [prediction_timestamp] are those of the sale
    result. *)
Theorem rent_keeps_sale_fields self utcnow request_data res :
  predict_rent_price self utcnow request_data = Return res ->
  exists s t,
    predict_sale_price self utcnow request_data = Return s /\
    rental_type s = None /\
    res = {| predicted_price_aed := predicted_price_aed res;
             price_per_sqft_aed := price_per_sqft_aed res;
             location_premium := location_premium s;
             confidence_score := confidence_score s;
             model_version := model_version s;
             prediction_timestamp := prediction_timestamp s;
             rental_type := Some t |}.
Proof.
  intros Hr.
  apply predict_rent_price_Return in Hr as (s & Hs & _ & ->).
  exists s, (rental_type_of (contract_type request_data)).
  split; [exact Hs|]. split; [|reflexivity].
  apply predict_sale_price_Return in Hs as (? & ? & _ & _ & ->).
  reflexivity.
Qed.

Lemma rent_keeps_sale_fields_witness :
  exists s t,
    predict_sale_price fallback_instance "2024-01-01T00:00:00"
      (marina_apartment (Some "monthly")) = Return s /\
    rental_type s = None /\
    overlay (marina_sale "2024-01-01T00:00:00") 8546.67 7.12 "monthly"
    = {| predicted_price_aed := 8546.67;
         price_per_sqft_aed := 7.12;
         location_premium := location_premium s;
         confidence_score := confidence_score s;
         model_version := model_version s;
         prediction_timestamp := prediction_timestamp s;
         rental_type := Some t |}.
Proof.
  apply (rent_keeps_sale_fields fallback_instance "2024-01-01T00:00:00"
           (marina_apartment (Some "monthly"))).
  vm_compute. reflexivity.
Defined.

(** ** What the schemas guarantee *)

Lemma SalePredictionRequest_area_positive body d :
  SalePredictionRequest body = Some d -> 0 < area_of d.
Proof.
  unfold SalePredictionRequest. intros H.
  destruct (property_type body), (bedrooms body), (bathrooms body),
    (area_sqft body) as [area|], (location body); try discriminate.
  destruct (Qlt_bool 0 area) eqn:Ha.
  - rewrite !andb_true_r in H.
    match type of H with (if ?b then _ else _) = _ => destruct b end;
      [|discriminate].
    injection H as <-. now apply Qlt_bool_iff.
  - rewrite !andb_false_r in H. discriminate.
Qed.

Lemma RentPredictionRequest_area_positive body d :
  RentPredictionRequest body = Some d -> 0 < area_of d.
Proof.
  unfold RentPredictionRequest. intros H.
  destruct (property_type body), (bedrooms body), (bathrooms body),
    (area_sqft body) as [area|], (location body); try discriminate.
  destruct (Qlt_bool 0 area) eqn:Ha.
  - rewrite !andb_true_r in H.
    match type of H with (if ?b then _ else _) = _ => destruct b end;
      [|discriminate].
    injection H as <-. now apply Qlt_bool_iff.
  - rewrite !andb_false_r in H. discriminate.
Qed.

(** ** Division by the area *)

(** C9: only the sale path guards its division.  For a zero area a sale
    prediction that returns has [price_per_sqft_aed] 0 while the rent
    prediction of the same request raises ZeroDivisionError; for a positive
    area, which every request accepted by the rent schema has, and for a
    missing [area_sqft] key (1000 is used), the rent prediction returns
    whenever the sale prediction does; on the dummy model the sale
    prediction returns for every request whose floor and building age a
    float holds, whatever the area. *)
Theorem rent_division_unguarded self utcnow request_data :
  (area_of request_data == 0 ->
   forall s, predict_sale_price self utcnow request_data = Return s ->
     price_per_sqft_aed s == 0 /\
     predict_rent_price self utcnow request_data = Raise ZeroDivisionError) /\
  (0 < area_of request_data ->
   forall s, predict_sale_price self utcnow request_data = Return s ->
     exists res, predict_rent_price self utcnow request_data = Return res) /\
  (forall body,
     RentPredictionRequest body = Some request_data ->
     0 < area_of request_data) /\
  (area_sqft request_data = None -> area_of request_data = 1000) /\
  (DubaiRealEstateModel.model self = Some DummyModel ->
   float_ok (floor request_data) = true ->
   float_ok (building_age_years request_data) = true ->
   exists s, predict_sale_price self utcnow request_data = Return s).
Proof.
  split; [|split; [|split; [|split]]].
  - intros Hz s Hs. split.
    + apply predict_sale_price_Return in Hs as (? & ? & _ & _ & ->).
      cbn [price_per_sqft_aed].
      assert (Hb : Qlt_bool 0 (area_of request_data) = false).
      { destruct (Qlt_bool 0 (area_of request_data)) eqn:E; [|reflexivity].
        apply Qlt_bool_iff in E. lra. }
      rewrite Hb. reflexivity.
    + rewrite (predict_rent_price_after_sale _ _ _ _ Hs).
      rewrite truediv_Raise by exact Hz. reflexivity.
  - intros Ha s Hs. eexists.
    apply (predict_rent_price_returns _ _ _ _ Hs). lra.
  - intros body. apply RentPredictionRequest_area_positive.
  - intros Hn. unfold area_of. rewrite Hn. reflexivity.
  - intros Hm Hf Ha.
    destruct (predict_sale_price_fallback self utcnow request_data Hm Hf Ha)
      as (_ & s & _ & Hs & _).
    exists s. exact Hs.
Qed.

Lemma rent_division_unguarded_witness :
  (exists s,
     predict_sale_price fallback_instance "2024-01-01T00:00:00"
       zero_area_apartment = Return s /\
     price_per_sqft_aed s == 0 /\
     predict_rent_price fallback_instance "2024-01-01T00:00:00"
       zero_area_apartment = Raise ZeroDivisionError) /\
  (exists res,
     predict_rent_price fallback_instance "2024-01-01T00:00:00"
       (marina_apartment None) = Return res).
Proof.
  split.
  - destruct (rent_division_unguarded fallback_instance
                "2024-01-01T00:00:00" zero_area_apartment)
      as (Hzero & _ & _ & _ & Hret).
    destruct (Hret eq_refl eq_refl eq_refl) as (s & Hs).
    exists s. split; [exact Hs|].
    apply Hzero; [reflexivity|exact Hs].
  - destruct (rent_division_unguarded fallback_instance
                "2024-01-01T00:00:00" (marina_apartment None))
      as (_ & Hpos & _ & _ & _).
    apply (Hpos eq_refl (marina_sale "2024-01-01T00:00:00")).
    vm_compute. reflexivity.
Defined.

(** ** The contract type *)

Lemma rental_type_of_not_monthly (c : string) :
  c <> "monthly" -> rental_type_of (Some c) = "annual".
Proof.
  intros Hc. unfold rental_type_of. cbn [get].
  destruct (String.eqb_spec c "monthly"); [contradiction|reflexivity].
Qed.

Lemma rent_of_not_monthly s (c : string) :
  c <> "monthly" -> rent_of s (Some c) = predicted_price_aed s * 0.08.
Proof.
  intros Hc. unfold rent_of. cbn [get].
  destruct (String.eqb_spec c "monthly"); [contradiction|reflexivity].
Qed.

Lemma predict_rent_price_not_monthly self utcnow request_data (c : string) :
  c <> "monthly" ->
  predict_rent_price self utcnow (with_contract_type request_data (Some c))
  = predict_rent_price self utcnow (with_contract_type request_data None).
Proof.
  intros Hc. unfold predict_rent_price.
  rewrite !predict_sale_price_contract_type.
  cbn [contract_type with_contract_type area_sqft get].
  destruct (String.eqb_spec c "monthly"); [contradiction|reflexivity].
Qed.

(** C10: a contract type other than the exact string "monthly", given or
    missing, is served like "annual": the outcome of [predict_rent_price]
    is the same as for "annual" and as for a missing key, a result is tagged
    "annual" and priced at the annual rent, and a result is returned
    whenever the sale prediction returns and the area is not zero.  The
    rent schema puts no constraint on [contract_type]: a body it accepts
    with "annual" it accepts with any other string, which reaches
    [predict_rent_price] unchanged. *)
Theorem contract_type_falls_to_annual self utcnow request_data (c : string) :
  c <> "monthly" ->
  predict_rent_price self utcnow (with_contract_type request_data (Some c))
  = predict_rent_price self utcnow
      (with_contract_type request_data (Some "annual")) /\
  predict_rent_price self utcnow (with_contract_type request_data None)
  = predict_rent_price self utcnow
      (with_contract_type request_data (Some "annual")) /\
  (forall res,
     predict_rent_price self utcnow (with_contract_type request_data (Some c))
     = Return res ->
     rental_type res = Some "annual") /\
  (forall s,
     predict_sale_price self utcnow request_data = Return s ->
     ~ area_of request_data == 0 ->
     exists res,
       predict_rent_price self utcnow
         (with_contract_type request_data (Some c)) = Return res /\
       rental_type res = Some "annual" /\
       predicted_price_aed res = round (predicted_price_aed s * 0.08) 2) /\
  (forall d,
     RentPredictionRequest (with_contract_type request_data (Some "annual"))
     = Some d ->
     RentPredictionRequest (with_contract_type request_data (Some c))
     = Some (with_contract_type d (Some c))).
Proof.
  intros Hc.
  assert (Ha : "annual" <> "monthly") by discriminate.
  split; [|split; [|split; [|split]]].
  - rewrite (predict_rent_price_not_monthly _ _ _ c Hc).
    rewrite (predict_rent_price_not_monthly _ _ _ "annual" Ha). reflexivity.
  - rewrite (predict_rent_price_not_monthly _ _ _ "annual" Ha). reflexivity.
  - intros res Hr.
    apply predict_rent_price_Return in Hr as (s & _ & _ & ->).
    cbn [overlay rental_type contract_type with_contract_type].
    rewrite rental_type_of_not_monthly by exact Hc. reflexivity.
  - intros s Hs Hz.
    rewrite <- (predict_sale_price_contract_type _ _ _ (Some c)) in Hs.
    eexists. split.
    + apply (predict_rent_price_returns _ _ _ _ Hs). exact Hz.
    + cbn [overlay rental_type predicted_price_aed contract_type
           with_contract_type].
      rewrite rental_type_of_not_monthly, rent_of_not_monthly by exact Hc.
      split; reflexivity.
  - intros d. unfold RentPredictionRequest.
    cbn [property_type bedrooms bathrooms area_sqft location floor
         building_age_years has_parking has_balcony has_gym has_pool
         near_metro furnished contract_type with_contract_type get].
    destruct (property_type request_data); [|discriminate].
    destruct (bedrooms request_data); [|discriminate].
    destruct (bathrooms request_data); [|discriminate].
    destruct (area_sqft request_data); [|discriminate].
    destruct (location request_data); [|discriminate].
    match goal with |- context [if ?b then _ else _] => destruct b end;
      [|discriminate].
    intros [= <-]. reflexivity.
Qed.

Lemma contract_type_falls_to_annual_witness :
  predict_rent_price fallback_instance "2024-01-01T00:00:00"
    (with_contract_type (marina_body None) (Some "Monthly"))
  = predict_rent_price fallback_instance "2024-01-01T00:00:00"
      (with_contract_type (marina_body None) (Some "annual")) /\
  (exists res,
     predict_rent_price fallback_instance "2024-01-01T00:00:00"
       (with_contract_type (marina_body None) (Some "Monthly")) = Return res /\
     rental_type res = Some "annual") /\
  RentPredictionRequest (with_contract_type (marina_body None) (Some "Monthly"))
  <> None.
Proof.
  destruct (contract_type_falls_to_annual fallback_instance
              "2024-01-01T00:00:00" (marina_body None) "Monthly")
    as (Hsame & _ & _ & Hret & Hschema); [discriminate|].
  split; [exact Hsame|]. split.
  - destruct (Hret (marina_sale "2024-01-01T00:00:00")) as (res & Hr & Ht & _).
    + vm_compute. reflexivity.
    + intros H. vm_compute in H. discriminate.
    + exists res. split; [exact Hr|exact Ht].
  - erewrite Hschema; [discriminate|]. vm_compute. reflexivity.
Defined.

(** * Further properties *)

(** ** Rounding to two decimals *)

Lemma Qlt_bool_false_iff (x y : Q) : Qlt_bool x y = false <-> y <= x.
Proof.
  unfold Qlt_bool. rewrite negb_false_iff. apply Qle_bool_iff.
Qed.

Lemma Qlt_bool_comp (x x' y y' : Q) :
  x == x' -> y == y' -> Qlt_bool x y = Qlt_bool x' y'.
Proof.
  intros Hx Hy. unfold Qlt_bool. now rewrite Hx, Hy.
Qed.

Lemma round_half_even_comp (x y : Q) :
  x == y -> round_half_even x = round_half_even y.
Proof.
  intros H. unfold round_half_even.
  rewrite (Qfloor_comp _ _ H).
  assert (E : x - inject_Z (Qfloor y) == y - inject_Z (Qfloor y))
    by (rewrite H; reflexivity).
  rewrite (Qlt_bool_comp _ _ _ _ E (Qeq_refl (1 # 2))).
  rewrite (Qlt_bool_comp _ _ _ _ (Qeq_refl (1 # 2)) E).
  reflexivity.
Qed.

Lemma round_half_even_Z (n : Z) : round_half_even (inject_Z n) = n.
Proof.
  unfold round_half_even. rewrite Qfloor_Z.
  assert (E : Qlt_bool (inject_Z n - inject_Z n) (1 # 2) = true)
    by (apply Qlt_bool_iff; lra).
  rewrite E. reflexivity.
Qed.

(** The rounding is one of the two integers around the number. *)
Lemma round_half_even_floor (x : Q) :
  (Qfloor x <= round_half_even x <= Qfloor x + 1)%Z.
Proof.
  unfold round_half_even.
  repeat match goal with |- context [if ?b then _ else _] => destruct b end;
    lia.
Qed.

Lemma round_half_even_mono (x y : Q) :
  x <= y -> (round_half_even x <= round_half_even y)%Z.
Proof.
  intros Hxy.
  pose proof (Qfloor_resp_le _ _ Hxy) as Hf.
  destruct (Z.eq_dec (Qfloor x) (Qfloor y)) as [E|N].
  - unfold round_half_even. rewrite E.
    destruct (Qlt_bool (y - inject_Z (Qfloor y)) (1 # 2)) eqn:Hy1.
    + apply Qlt_bool_iff in Hy1.
      assert (Hx1 : Qlt_bool (x - inject_Z (Qfloor y)) (1 # 2) = true)
        by (apply Qlt_bool_iff; lra).
      rewrite Hx1. lia.
    + destruct (Qlt_bool (1 # 2) (y - inject_Z (Qfloor y))) eqn:Hy2.
      * repeat match goal with
               | |- context [if ?b then _ else _] => destruct b
               end; lia.
      * apply Qlt_bool_false_iff in Hy1, Hy2.
        assert (Hx2 : Qlt_bool (1 # 2) (x - inject_Z (Qfloor y)) = false)
          by (apply Qlt_bool_false_iff; lra).
        rewrite Hx2.
        repeat match goal with
               | |- context [if ?b then _ else _] => destruct b
               end; lia.
  - pose proof (round_half_even_floor x). pose proof (round_half_even_floor y).
    lia.
Qed.

Lemma round_2_unfold (x : Q) : round x 2 = round_half_even (x * 100) # 100.
Proof. reflexivity. Qed.

Lemma round_2_mono (x y : Q) : x <= y -> round x 2 <= round y 2.
Proof.
  intros Hxy. rewrite !round_2_unfold.
  unfold Qle. cbn [Qnum Qden].
  apply Z.mul_le_mono_nonneg_r; [lia|].
  apply round_half_even_mono. lra.
Qed.

(** A rounded number is its own rounding. *)
Lemma round_2_idem (x : Q) : round (round x 2) 2 = round x 2.
Proof.
  rewrite (round_2_unfold (round x 2)), (round_2_unfold x).
  f_equal.
  rewrite (round_half_even_comp _ (inject_Z (round_half_even (x * 100)))).
  - apply round_half_even_Z.
  - rewrite (Qmake_Qdiv _ 100). change (inject_Z (Z.pos 100)) with 100. field.
Qed.

Lemma round_2_Z (n : Z) : round (inject_Z n) 2 == inject_Z n.
Proof.
  rewrite round_2_unfold.
  rewrite (round_half_even_comp _ (inject_Z (n * 100))).
  - rewrite round_half_even_Z. rewrite (Qmake_Qdiv _ 100).
    rewrite inject_Z_mult. change (inject_Z (Z.pos 100)) with 100.
    change (inject_Z 100) with 100. field.
  - rewrite inject_Z_mult. reflexivity.
Qed.

(** ** Results *)

(** X1: every amount of a result, of a sale or of a rent prediction, has at
    most two decimals: rounding it again to two decimals gives it back. *)
Theorem result_amounts_two_decimals self utcnow request_data res :
  predict_sale_price self utcnow request_data = Return res \/
  predict_rent_price self utcnow request_data = Return res ->
  round (predicted_price_aed res) 2 = predicted_price_aed res /\
  round (price_per_sqft_aed res) 2 = price_per_sqft_aed res /\
  round (location_premium res) 2 = location_premium res.
Proof.
  intros [Hs|Hr].
  - apply predict_sale_price_Return in Hs as (? & ? & _ & _ & ->).
    cbn [predicted_price_aed price_per_sqft_aed location_premium].
    repeat split; apply round_2_idem.
  - apply predict_rent_price_Return in Hr as (s & Hs & _ & ->).
    apply predict_sale_price_Return in Hs as (? & ? & _ & _ & ->).
    cbn [overlay predicted_price_aed price_per_sqft_aed location_premium].
    repeat split; apply round_2_idem.
Qed.

Lemma result_amounts_two_decimals_witness :
  round (predicted_price_aed (marina_sale "2024-01-01T00:00:00")) 2
  = predicted_price_aed (marina_sale "2024-01-01T00:00:00") /\
  round (price_per_sqft_aed (marina_sale "2024-01-01T00:00:00")) 2
  = price_per_sqft_aed (marina_sale "2024-01-01T00:00:00") /\
  round (location_premium (marina_sale "2024-01-01T00:00:00")) 2
  = location_premium (marina_sale "2024-01-01T00:00:00").
Proof.
  apply (result_amounts_two_decimals fallback_instance "2024-01-01T00:00:00"
           (marina_apartment None)).
  left. vm_compute. reflexivity.
Defined.

(** The factors of the table have one decimal: the premium is exact. *)
Lemma location_premium_exact (loc : string) :
  round (spec_location_factor loc - 1.0) 2 == spec_location_factor loc - 1 /\
  7 # 10 <= spec_location_factor loc <= 14 # 10.
Proof.
  unfold spec_location_factor.
  repeat match goal with
         | |- context [if ?b then _ else _] => destruct b
         end;
    (split; [reflexivity | split; discriminate]).
Qed.

Lemma spec_location_factor_unlisted (loc : string) :
  loc ∉ DubaiLocation -> spec_location_factor loc = 1.0.
Proof.
  intros Hn. unfold spec_location_factor.
  repeat match goal with
         | |- context [String.eqb loc ?k] =>
             destruct (String.eqb_spec loc k) as [->|_];
             [exfalso; apply Hn; unfold DubaiLocation; set_solver|]
         end.
  reflexivity.
Qed.

(** X2: the location premium of a sale result is the rounding to two
    decimals of the location factor that [encode_features] puts at index
    3, minus 1.0: the table of [_get_location_factor] and the table of
    [encode_features] agree.  It is within half a cent of that difference,
    lies between -0.3 and 0.4, and is 0 for a location outside the eleven
    listed ones, whose factor is 1.0. *)
Theorem location_premium_of_feature self utcnow request_data s :
  predict_sale_price self utcnow request_data = Return s ->
  exists row,
    encode_features self request_data = Return [row] /\
    location_premium s = round (feature row 3 - 1.0) 2 /\
    Qabs (location_premium s - (feature row 3 - 1.0)) <= 1 # 200 /\
    - (3 # 10) <= location_premium s <= 4 # 10 /\
    (forall loc, location request_data = Some loc -> loc ∉ DubaiLocation ->
     feature row 3 = 1.0 /\ location_premium s == 0).
Proof.
  intros Hs.
  apply predict_sale_price_Return in Hs
    as (? & ? & (features & Henc & _) & _ & ->).
  apply encode_features_Return in Henc as (Hf & Ha & _).
  exists (spec_feature_vector request_data).
  split; [apply (encode_features_row _ _ Hf Ha)|].
  cbn [location_premium]. rewrite _get_location_factor_spec.
  unfold spec_feature_vector, feature. cbn [nth].
  destruct (location_premium_exact
              (get (location request_data) "dubai_marina")) as (He & Hlo & Hhi).
  split; [reflexivity|].
  split; [apply Qabs_Qle_condition; apply round_2_close|].
  split; [rewrite He; lra|].
  intros loc Hloc Hn. rewrite Hloc in *. cbn [get] in *.
  rewrite He. rewrite (spec_location_factor_unlisted loc Hn).
  split; reflexivity.
Qed.

Lemma location_premium_of_feature_witness :
  exists row,
    encode_features fallback_instance (marina_apartment None)
    = Return [row] /\
    location_premium (marina_sale "2024-01-01T00:00:00")
    = round (feature row 3 - 1.0) 2 /\
    Qabs (location_premium (marina_sale "2024-01-01T00:00:00")
          - (feature row 3 - 1.0)) <= 1 # 200 /\
    - (3 # 10) <= location_premium (marina_sale "2024-01-01T00:00:00")
      <= 4 # 10 /\
    (forall loc, location (marina_apartment None) = Some loc ->
     loc ∉ DubaiLocation ->
     feature row 3 = 1.0 /\
     location_premium (marina_sale "2024-01-01T00:00:00") == 0).
Proof.
  apply (location_premium_of_feature fallback_instance "2024-01-01T00:00:00"
           (marina_apartment None)).
  vm_compute. reflexivity.
Defined.

(** ** The dummy model, further *)

Lemma sum_flags_nonneg (a b c d e f : bool) :
  0 <= sum [inject_Z (int a); inject_Z (int b); inject_Z (int c);
            inject_Z (int d); inject_Z (int e); inject_Z (int f)].
Proof. destruct a, b, c, d, e, f; discriminate. Qed.

(** What the dummy model returns for a request, without the features. *)
Lemma predict_sale_price_fallback_eq self utcnow request_data :
  DubaiRealEstateModel.model self = Some DummyModel ->
  float_ok (floor request_data) = true ->
  float_ok (building_age_years request_data) = true ->
  exists price,
    DummyModel_predict [spec_feature_vector request_data] = Return [price] /\
    price == 500000
             + spec_location_factor
                 (get (location request_data) "dubai_marina") * 300000
             + area_of request_data * 360
             + 50000 * sum (drop 7 (spec_feature_vector request_data)) /\
    predict_sale_price self utcnow request_data
    = Return
        {| predicted_price_aed := round price 2;
           price_per_sqft_aed :=
             round (if Qlt_bool 0 (area_of request_data)
                    then price / area_of request_data else 0) 2;
           location_premium :=
             round (_get_location_factor self
                      (get (location request_data) "dubai_marina") - 1.0) 2;
           confidence_score := 0.85;
           model_version := DubaiRealEstateModel.model_version self;
           prediction_timestamp := utcnow ++ "Z";
           rental_type := None |}.
Proof.
  intros Hm Hf Ha.
  eexists. split; [reflexivity|]. split.
  - unfold spec_feature_vector, area_of. cbn [drop]. field.
  - unfold predict_sale_price.
    rewrite (encode_features_row _ _ Hf Ha), Hm. reflexivity.
Qed.

(** X3: the dummy model prices by area, location and amenities only: two
    requests that agree on those, a missing key counting as its default,
    get the same sale result, whatever their bedrooms, bathrooms, property
    type, floor and building age, provided the floors and ages are
    integers that a float holds (so that both requests are encoded). *)
Theorem fallback_ignores_rooms self utcnow (r1 r2 : request_dict) :
  DubaiRealEstateModel.model self = Some DummyModel ->
  float_ok (floor r1) = true ->
  float_ok (building_age_years r1) = true ->
  float_ok (floor r2) = true ->
  float_ok (building_age_years r2) = true ->
  get (area_sqft r1) 1000 = get (area_sqft r2) 1000 ->
  get (location r1) "dubai_marina" = get (location r2) "dubai_marina" ->
  get (has_parking r1) true = get (has_parking r2) true ->
  get (has_balcony r1) false = get (has_balcony r2) false ->
  get (has_gym r1) false = get (has_gym r2) false ->
  get (has_pool r1) false = get (has_pool r2) false ->
  get (near_metro r1) false = get (near_metro r2) false ->
  get (furnished r1) false = get (furnished r2) false ->
  predict_sale_price self utcnow r1 = predict_sale_price self utcnow r2.
Proof.
  intros Hm Hf1 Ha1 Hf2 Ha2 Ha Hl H1 H2 H3 H4 H5 H6.
  unfold predict_sale_price.
  rewrite (encode_features_row _ _ Hf1 Ha1), (encode_features_row _ _ Hf2 Ha2).
  rewrite Hm. cbn [bind model_predict].
  unfold spec_feature_vector.
  rewrite Ha, Hl, H1, H2, H3, H4, H5, H6. reflexivity.
Qed.

Lemma fallback_ignores_rooms_witness :
  predict_sale_price fallback_instance "2024-01-01T00:00:00"
    (marina_apartment None)
  = predict_sale_price fallback_instance "2024-01-01T00:00:00"
      (marina_body None).
Proof.
  apply (fallback_ignores_rooms fallback_instance "2024-01-01T00:00:00"
           (marina_apartment None) (marina_body None));
    reflexivity.
Defined.

(** The lowest price of the dummy model, before rounding. *)
Lemma fallback_raw_price_floor self utcnow request_data :
  DubaiRealEstateModel.model self = Some DummyModel ->
  float_ok (floor request_data) = true ->
  float_ok (building_age_years request_data) = true ->
  0 <= area_of request_data ->
  exists price,
    710000 <= price /\
    predict_sale_price self utcnow request_data
    = Return
        {| predicted_price_aed := round price 2;
           price_per_sqft_aed :=
             round (if Qlt_bool 0 (area_of request_data)
                    then price / area_of request_data else 0) 2;
           location_premium :=
             round (_get_location_factor self
                      (get (location request_data) "dubai_marina") - 1.0) 2;
           confidence_score := 0.85;
           model_version := DubaiRealEstateModel.model_version self;
           prediction_timestamp := utcnow ++ "Z";
           rental_type := None |}.
Proof.
  intros Hm Hfl Hag Ha.
  destruct (predict_sale_price_fallback_eq self utcnow request_data Hm
              Hfl Hag) as (price & _ & Hp & Hs).
  exists price. split; [|exact Hs].
  destruct (location_premium_exact
              (get (location request_data) "dubai_marina")) as (_ & Hlo & _).
  pose proof (sum_flags_nonneg
                (get (has_parking request_data) true)
                (get (has_balcony request_data) false)
                (get (has_gym request_data) false)
                (get (has_pool request_data) false)
                (get (near_metro request_data) false)
                (get (furnished request_data) false)) as Hflags.
  unfold spec_feature_vector in Hp. cbn [drop] in Hp.
  rewrite Hp. lra.
Qed.

(** X4: on the dummy model a request with a non-negative area, and a floor
    and building age that a float holds, is priced at 710000 AED or more
    (the base price and the lowest location factor), and its price per
    square foot is not negative. *)
Theorem fallback_price_floor self utcnow request_data :
  DubaiRealEstateModel.model self = Some DummyModel ->
  float_ok (floor request_data) = true ->
  float_ok (building_age_years request_data) = true ->
  0 <= area_of request_data ->
  exists s,
    predict_sale_price self utcnow request_data = Return s /\
    710000 <= predicted_price_aed s /\
    0 <= price_per_sqft_aed s.
Proof.
  intros Hm Hfl Hag Ha.
  destruct (fallback_raw_price_floor self utcnow request_data Hm Hfl Hag Ha)
    as (price & Hprice & Hs).
  eexists. split; [exact Hs|].
  cbn [predicted_price_aed price_per_sqft_aed]. split.
  - apply Qle_trans with (round 710000 2); [discriminate|].
    now apply round_2_mono.
  - apply Qle_trans with (round 0 2); [discriminate|].
    apply round_2_mono.
    destruct (Qlt_bool 0 (area_of request_data)) eqn:Hb; [|lra].
    apply Qlt_bool_iff in Hb.
    apply Qle_shift_div_l; lra.
Qed.

Lemma fallback_price_floor_witness :
  exists s,
    predict_sale_price fallback_instance "2024-01-01T00:00:00"
      zero_area_apartment = Return s /\
    710000 <= predicted_price_aed s /\
    0 <= price_per_sqft_aed s.
Proof.
  apply (fallback_price_floor fallback_instance "2024-01-01T00:00:00"
           zero_area_apartment).
  - reflexivity.
  - reflexivity.
  - reflexivity.
  - vm_compute. discriminate.
Defined.

Lemma DummyModel_predict_row_long (row : list Q) :
  (4 <= length row)%nat ->
  exists price, DummyModel_predict_row row = Return price.
Proof.
  intros Hlen.
  destruct row as [|a [|b [|c [|d row]]]]; cbn [length] in Hlen; try lia.
  eexists. reflexivity.
Qed.

Lemma DummyModel_predict_row_short (row : list Q) :
  (length row < 4)%nat -> DummyModel_predict_row row = Raise IndexError.
Proof.
  intros Hlen.
  destruct row as [|a [|b [|c [|d row]]]]; cbn [length] in Hlen;
    try lia; reflexivity.
Qed.

Lemma DummyModel_predict_loop_long (X : list (list Q)) :
  Forall (fun row => (4 <= length row)%nat) X ->
  forall predictions, exists predictions',
    DummyModel_predict_loop X predictions
    = Return (predictions ++ predictions')%list /\
    length predictions' = length X.
Proof.
  induction 1 as [|row X Hrow _ IH]; intros predictions.
  - exists []. rewrite app_nil_r. split; reflexivity.
  - destruct (DummyModel_predict_row_long row Hrow) as (price & Hp).
    destruct (IH (predictions ++ [price])%list) as (rest & Hrest & Hlen).
    exists (price :: rest). cbn [DummyModel_predict_loop].
    rewrite Hp. cbn [bind]. rewrite Hrest, <- app_assoc.
    split; [reflexivity|]. cbn [length]. now rewrite Hlen.
Qed.

Lemma DummyModel_predict_loop_short (X : list (list Q)) :
  Exists (fun row => (length row < 4)%nat) X ->
  forall predictions,
    DummyModel_predict_loop X predictions = Raise IndexError.
Proof.
  induction 1 as [row X Hrow|row X _ IH]; intros predictions.
  - cbn [DummyModel_predict_loop].
    rewrite (DummyModel_predict_row_short row Hrow). reflexivity.
  - cbn [DummyModel_predict_loop].
    destruct (DummyModel_predict_row row) as [price|e] eqn:Hp.
    + cbn [bind]. apply IH.
    + cbn [bind].
      destruct (le_lt_dec 4 (length row)) as [Hl|Hl].
      * destruct (DummyModel_predict_row_long row Hl) as (? & Hq). congruence.
      * rewrite (DummyModel_predict_row_short row Hl) in Hp. congruence.
Qed.

(** X5: [DummyModel.predict] on a batch returns one price per row when
    every row has at least four entries (none for the empty batch), and
    raises IndexError as soon as a row has fewer than four. *)
Theorem DummyModel_predict_batch (X : list (list Q)) :
  (Forall (fun row => (4 <= length row)%nat) X ->
   exists predictions,
     DummyModel_predict X = Return predictions /\
     length predictions = length X) /\
  (Exists (fun row => (length row < 4)%nat) X ->
   DummyModel_predict X = Raise IndexError).
Proof.
  split.
  - intros HX.
    destruct (DummyModel_predict_loop_long X HX []) as (ps & Hps & Hlen).
    exists ps. split; [exact Hps|exact Hlen].
  - intros HX. apply (DummyModel_predict_loop_short X HX).
Qed.

Lemma DummyModel_predict_batch_witness :
  (exists predictions,
     DummyModel_predict
       [spec_feature_vector (marina_apartment None);
        [0; 0; 450; 9 # 10]]
     = Return predictions /\
     length predictions = 2%nat) /\
  DummyModel_predict [spec_feature_vector (marina_apartment None); [2; 2; 1200]]
  = Raise IndexError.
Proof.
  split.
  - apply (DummyModel_predict_batch
             [spec_feature_vector (marina_apartment None);
              [0; 0; 450; 9 # 10]]).
    repeat constructor; cbn; lia.
  - apply (DummyModel_predict_batch
             [spec_feature_vector (marina_apartment None); [2; 2; 1200]]).
    right. left. cbn. lia.
Defined.

(** ** A loaded artifact *)

(** X6: nothing recovers from a failing artifact at prediction time: an
    exception raised by its [predict] on the encoded request is raised
    unchanged by [predict_sale_price] and by [predict_rent_price], and an
    artifact that returns an empty array makes both raise IndexError. *)
Theorem artifact_errors_propagate self utcnow request_data predict features :
  DubaiRealEstateModel.model self = Some (Artifact predict) ->
  encode_features self request_data = Return features ->
  (forall e,
     predict features = Raise e ->
     predict_sale_price self utcnow request_data = Raise e /\
     predict_rent_price self utcnow request_data = Raise e) /\
  (predict features = Return [] ->
   predict_sale_price self utcnow request_data = Raise IndexError /\
   predict_rent_price self utcnow request_data = Raise IndexError).
Proof.
  intros Hm Henc. split.
  - intros e He.
    assert (Hs : predict_sale_price self utcnow request_data = Raise e).
    { unfold predict_sale_price. rewrite Henc, Hm. cbn [bind model_predict].
      rewrite He. reflexivity. }
    split; [exact Hs|].
    unfold predict_rent_price. rewrite Hs. reflexivity.
  - intros He.
    assert (Hs : predict_sale_price self utcnow request_data
                 = Raise IndexError).
    { unfold predict_sale_price. rewrite Henc, Hm. cbn [bind model_predict].
      rewrite He. reflexivity. }
    split; [exact Hs|].
    unfold predict_rent_price. rewrite Hs. reflexivity.
Qed.

Lemma artifact_errors_propagate_witness :
  (predict_sale_price (instance_of (raising_artifact (Exception "shape")))
     "2024-01-01T00:00:00" (marina_apartment None)
   = Raise (Exception "shape") /\
   predict_rent_price (instance_of (raising_artifact (Exception "shape")))
     "2024-01-01T00:00:00" (marina_apartment None)
   = Raise (Exception "shape")) /\
  (predict_sale_price (instance_of silent_artifact)
     "2024-01-01T00:00:00" (marina_apartment None)
   = Raise IndexError /\
   predict_rent_price (instance_of silent_artifact)
     "2024-01-01T00:00:00" (marina_apartment None)
   = Raise IndexError).
Proof.
  split.
  - apply (artifact_errors_propagate
             (instance_of (raising_artifact (Exception "shape")))
             "2024-01-01T00:00:00" (marina_apartment None)
             (raising_artifact (Exception "shape"))
             [spec_feature_vector (marina_apartment None)] eq_refl).
    + vm_compute. reflexivity.
    + reflexivity.
  - apply (artifact_errors_propagate (instance_of silent_artifact)
             "2024-01-01T00:00:00" (marina_apartment None)
             silent_artifact
             [spec_feature_vector (marina_apartment None)] eq_refl).
    + vm_compute. reflexivity.
    + reflexivity.
Defined.

(** X7: which model an instance holds after [__init__]: the artifact
    exactly when the path exists and joblib returns it, the dummy model
    exactly when the path does not exist or joblib raises; the path and the
    version do not depend on which. *)
Theorem __init___model w path :
  exists self,
    __init__ w path = Return self /\
    DubaiRealEstateModel.model_path self = path /\
    DubaiRealEstateModel.model_version self
    = get (getenv w "MODEL_VERSION") "v1.0.0" /\
    (forall predict,
       DubaiRealEstateModel.model self = Some (Artifact predict) <->
       path_exists w path = true /\ joblib_load w path = Return predict) /\
    (DubaiRealEstateModel.model self = Some DummyModel <->
     path_exists w path = false \/ exists e, joblib_load w path = Raise e).
Proof.
  unfold __init__, load_model. cbn [DubaiRealEstateModel.model_path].
  destruct (path_exists w path) eqn:Hp.
  - destruct (joblib_load w path) as [m|e] eqn:Hl;
      cbn [bind try_except]; eexists; (split; [reflexivity|]);
      cbn [set_model _create_dummy_model DubaiRealEstateModel.model
           DubaiRealEstateModel.model_path
           DubaiRealEstateModel.model_version];
      (split; [reflexivity|]); (split; [reflexivity|]); split.
    + intros predict. split.
      * intros [= ->]. split; reflexivity.
      * intros [_ [= ->]]. reflexivity.
    + split; [discriminate|].
      intros [H|[e H]]; discriminate.
    + intros predict. split; [discriminate|]. intros [_ H]. discriminate.
    + split; [|reflexivity]. intros _. right. exists e. reflexivity.
  - cbn [try_except]. eexists. split; [reflexivity|].
    cbn [set_model _create_dummy_model DubaiRealEstateModel.model
         DubaiRealEstateModel.model_path DubaiRealEstateModel.model_version].
    split; [reflexivity|]. split; [reflexivity|]. split.
    + intros predict. split; [discriminate|]. intros [H _]. discriminate.
    + split; [|reflexivity]. intros _. left. reflexivity.
Qed.

Lemma __init___model_witness :
  exists self,
    __init__ os_with_artifact "/app/models/dubai_realestate_model.pkl"
    = Return self /\
    DubaiRealEstateModel.model self = Some (Artifact silent_artifact).
Proof.
  destruct (__init___model os_with_artifact
              "/app/models/dubai_realestate_model.pkl")
    as (self & Hinit & _ & _ & Hart & _).
  exists self. split; [exact Hinit|].
  apply Hart. split; reflexivity.
Defined.

(** ** The module-level instance *)

(** The first call initializes the instance. *)
Lemma get_model_first conf w :
  exists m,
    get_model conf w None = Return (m, Some m) /\
    __init__ w (MODEL_PATH conf) = Return m /\
    DubaiRealEstateModel.model m <> None.
Proof.
  destruct (__init___returns w (MODEL_PATH conf)) as (m & Hinit & Hm & _).
  exists m. unfold get_model. rewrite Hinit. repeat split; auto.
Qed.

(** X8: the model is loaded once: the first [get_model] builds the instance
    from the configured path, holding a model, and stores it; every later
    call returns that same instance and store, whatever the settings and
    the environment have become (an artifact that appears later is not
    picked up). *)
Theorem get_model_loads_once conf w :
  exists m,
    get_model conf w None = Return (m, Some m) /\
    __init__ w (MODEL_PATH conf) = Return m /\
    DubaiRealEstateModel.model m <> None /\
    (forall conf' w', get_model conf' w' (Some m) = Return (m, Some m)).
Proof.
  destruct (get_model_first conf w) as (m & Hg & Hi & Hm).
  exists m. repeat split; auto.
Qed.

(** ** Rent, further *)

(** X9: for a sale price that is not negative the monthly rent is at most
    the annual rent, which is at most the sale price, all as returned
    (rounded). *)
Theorem monthly_annual_sale_order self utcnow request_data s :
  predict_sale_price self utcnow request_data = Return s ->
  ~ area_of request_data == 0 ->
  0 <= predicted_price_aed s ->
  exists monthly annual,
    predict_rent_price self utcnow
      (with_contract_type request_data (Some "monthly")) = Return monthly /\
    predict_rent_price self utcnow
      (with_contract_type request_data (Some "annual")) = Return annual /\
    predicted_price_aed monthly <= predicted_price_aed annual /\
    predicted_price_aed annual <= predicted_price_aed s.
Proof.
  intros Hs Ha Hpos.
  pose proof Hs as Hm.
  pose proof Hs as Hn.
  rewrite <- (predict_sale_price_contract_type _ _ _ (Some "monthly")) in Hm.
  rewrite <- (predict_sale_price_contract_type _ _ _ (Some "annual")) in Hn.
  eexists. eexists. split; [|split].
  - apply (predict_rent_price_returns _ _ _ _ Hm). exact Ha.
  - apply (predict_rent_price_returns _ _ _ _ Hn). exact Ha.
  - cbn [overlay predicted_price_aed]. split.
    + apply round_2_mono.
      change (rent_of s (contract_type
                (with_contract_type request_data (Some "monthly"))))
        with (predicted_price_aed s * 0.08 / 12).
      change (rent_of s (contract_type
                (with_contract_type request_data (Some "annual"))))
        with (predicted_price_aed s * 0.08).
      set (p := predicted_price_aed s) in *.
      assert (E : p * 0.08 / 12 == p * 0.08 * (1 # 12)) by field.
      rewrite E. lra.
    + assert (E : round (predicted_price_aed s) 2 = predicted_price_aed s).
      { apply predict_sale_price_Return in Hs as (? & ? & _ & _ & ->).
        cbn [predicted_price_aed]. apply round_2_idem. }
      apply Qle_trans with (round (predicted_price_aed s) 2);
        [|rewrite E; apply Qle_refl].
      apply round_2_mono.
      change (rent_of s (contract_type
                (with_contract_type request_data (Some "annual"))))
        with (predicted_price_aed s * 0.08).
      lra.
Qed.

Lemma monthly_annual_sale_order_witness :
  exists monthly annual,
    predict_rent_price fallback_instance "2024-01-01T00:00:00"
      (with_contract_type (marina_apartment None) (Some "monthly"))
    = Return monthly /\
    predict_rent_price fallback_instance "2024-01-01T00:00:00"
      (with_contract_type (marina_apartment None) (Some "annual"))
    = Return annual /\
    predicted_price_aed monthly <= predicted_price_aed annual /\
    predicted_price_aed annual
    <= predicted_price_aed (marina_sale "2024-01-01T00:00:00").
Proof.
  apply (monthly_annual_sale_order fallback_instance "2024-01-01T00:00:00"
           (marina_apartment None) (marina_sale "2024-01-01T00:00:00")).
  - vm_compute. reflexivity.
  - intros H. vm_compute in H. discriminate.
  - vm_compute. discriminate.
Defined.

(** ** The request schemas, further *)

(** X10: validation is idempotent: the dict of an accepted request is
    accepted again, by the same schema, and is its own dict (all defaults
    are already filled in). *)
Theorem validated_dict_is_valid body d :
  (SalePredictionRequest body = Some d -> SalePredictionRequest d = Some d) /\
  (RentPredictionRequest body = Some d -> RentPredictionRequest d = Some d).
Proof.
  split.
  - unfold SalePredictionRequest at 1. intros H.
    destruct (property_type body), (bedrooms body), (bathrooms body),
      (area_sqft body), (location body); try discriminate.
    match type of H with
    | (if ?b then _ else _) = _ => destruct b eqn:Hb
    end; [|discriminate].
    injection H as <-. unfold SalePredictionRequest.
    cbn [property_type bedrooms bathrooms area_sqft location floor
         building_age_years has_parking has_balcony has_gym has_pool
         near_metro furnished contract_type get].
    rewrite Hb. reflexivity.
  - unfold RentPredictionRequest at 1. intros H.
    destruct (property_type body), (bedrooms body), (bathrooms body),
      (area_sqft body), (location body); try discriminate.
    match type of H with
    | (if ?b then _ else _) = _ => destruct b eqn:Hb
    end; [|discriminate].
    injection H as <-. unfold RentPredictionRequest.
    cbn [property_type bedrooms bathrooms area_sqft location floor
         building_age_years has_parking has_balcony has_gym has_pool
         near_metro furnished contract_type get].
    rewrite Hb. reflexivity.
Qed.

Lemma validated_dict_is_valid_witness :
  exists d,
    RentPredictionRequest (marina_body (Some "monthly")) = Some d /\
    RentPredictionRequest d = Some d /\
    has_parking d = Some true /\
    contract_type d = Some "monthly".
Proof.
  eexists. split; [vm_compute; reflexivity|]. split.
  - apply (validated_dict_is_valid (marina_body (Some "monthly"))).
    vm_compute. reflexivity.
  - split; reflexivity.
Defined.

(** X11: on the keys the two schemas share the sale schema is the stricter
    one: a body it accepts, whose [contract_type] key is missing or holds a
    string (the bodies [request_dict] describes; the sale schema ignores
    that key, the rent schema wants a string there), is accepted by the
    rent schema too, with the same dict but for the contract type (the one
    of the body, "annual" when it has none). *)
Theorem sale_request_is_rent_request body d :
  SalePredictionRequest body = Some d ->
  RentPredictionRequest body
  = Some (with_contract_type d
            (Some (get (contract_type body) "annual"))).
Proof.
  unfold SalePredictionRequest, RentPredictionRequest. intros H.
  destruct (property_type body), (bedrooms body), (bathrooms body),
    (area_sqft body), (location body); try discriminate.
  match type of H with
  | (if ?b && ?f && ?a then _ else _) = _ =>
      destruct b; [|discriminate]
  end.
  match type of H with
  | (if ?b then _ else _) = _ => destruct b; [|discriminate]
  end.
  injection H as <-. reflexivity.
Qed.

Lemma sale_request_is_rent_request_witness :
  exists d,
    SalePredictionRequest (marina_apartment None) = Some d /\
    RentPredictionRequest (marina_apartment None)
    = Some (with_contract_type d (Some "annual")).
Proof.
  eexists. split; [vm_compute; reflexivity|].
  apply (sale_request_is_rent_request (marina_apartment None)).
  vm_compute. reflexivity.
Defined.



(** ** The endpoints *)

(** The confidence score of every result is 0.85, which the response schema
    accepts. *)
Lemma PredictionResponse_of_sale self utcnow request_data s :
  predict_sale_price self utcnow request_data = Return s ->
  confidence_score s = 0.85 /\
  PredictionResponse_of s = Return (response_of s).
Proof.
  intros Hs.
  apply predict_sale_price_Return in Hs as (? & ? & _ & _ & ->).
  split; reflexivity.
Qed.

Lemma PredictionResponse_of_rent self utcnow request_data res :
  predict_rent_price self utcnow request_data = Return res ->
  confidence_score res = 0.85 /\
  PredictionResponse_of res = Return (response_of res).
Proof.
  intros Hr.
  apply predict_rent_price_Return in Hr as (s & Hs & _ & ->).
  apply predict_sale_price_Return in Hs as (? & ? & _ & _ & ->).
  split; reflexivity.
Qed.

Lemma get_model_returns conf w model_instance :
  (forall m, model_instance = Some m -> DubaiRealEstateModel.model m <> None) ->
  exists m,
    get_model conf w model_instance = Return (m, Some m) /\
    DubaiRealEstateModel.model m <> None /\
    (forall m', model_instance = Some m' -> m = m') /\
    (model_instance = None -> __init__ w (MODEL_PATH conf) = Return m).
Proof.
  intros Hinv. destruct model_instance as [m|].
  - exists m. split; [reflexivity|]. split; [now apply Hinv|].
    split; [now intros m' [= ->]|discriminate].
  - destruct (get_model_first conf w) as (m & Hg & Hi & Hm).
    exists m. split; [exact Hg|]. split; [exact Hm|].
    split; [discriminate|]. intros _. exact Hi.
Qed.

(** X13: a prediction handler answers with the response made of the dict
    the model method returns and with status 500, the detail being
    "Prediction failed: " followed by the exception's text, exactly when the
    method raises; building the response never fails, and the key
    [rental_type] of a rent result is not part of the response.  The global
    instance is set after the call. *)
Theorem prediction_handlers_outcome (str : exn -> string) conf w utcnow
    model_instance request :
  exists m,
    get_model conf w model_instance = Return (m, Some m) /\
    main.predict_sale_price str conf w utcnow model_instance request
    = (match predict_sale_price m utcnow request with
       | Return prediction => main.Response (response_of prediction)
       | Raise e =>
           main.HTTPException 500 ("Prediction failed: " ++ str e)
       end, Some m) /\
    main.predict_rent_price str conf w utcnow model_instance request
    = (match predict_rent_price m utcnow request with
       | Return prediction => main.Response (response_of prediction)
       | Raise e =>
           main.HTTPException 500 ("Prediction failed: " ++ str e)
       end, Some m).
Proof.
  assert (Hg : exists m, get_model conf w model_instance = Return (m, Some m)).
  { destruct model_instance as [m|].
    - exists m. reflexivity.
    - destruct (get_model_first conf w) as (m & Hg & _).
      exists m. exact Hg. }
  destruct Hg as (m & Hg). exists m. split; [exact Hg|].
  unfold main.predict_sale_price, main.predict_rent_price. rewrite Hg.
  split.
  - destruct (predict_sale_price m utcnow request) as [s|e] eqn:Hs;
      cbn [bind]; [|reflexivity].
    destruct (PredictionResponse_of_sale _ _ _ _ Hs) as (_ & ->).
    reflexivity.
  - destruct (predict_rent_price m utcnow request) as [r|e] eqn:Hr;
      cbn [bind]; [|reflexivity].
    destruct (PredictionResponse_of_rent _ _ _ _ Hr) as (_ & ->).
    reflexivity.
Qed.

Lemma __init___fallback w path :
  path_exists w path = false \/ (exists e, joblib_load w path = Raise e) ->
  __init__ w path
  = Return {| DubaiRealEstateModel.model_path := path;
              DubaiRealEstateModel.model := Some DummyModel;
              DubaiRealEstateModel.model_version :=
                get (getenv w "MODEL_VERSION") "v1.0.0" |}.
Proof.
  intros H. unfold __init__, load_model.
  cbn [DubaiRealEstateModel.model_path].
  destruct (path_exists w path) eqn:Hp; [|reflexivity].
  destruct H as [H|[e He]]; [discriminate|].
  rewrite He. reflexivity.
Qed.

Lemma rent_of_floor s c :
  710000 <= predicted_price_aed s -> 14200 # 3 <= rent_of s c.
Proof.
  intros Hs. unfold rent_of.
  set (p := predicted_price_aed s) in *.
  destruct (String.eqb (get c "annual") "monthly").
  - assert (E : p * 0.08 / 12 == p * 0.08 * (1 # 12)) by field.
    rewrite E. lra.
  - lra.
Qed.

Lemma get_model_fallback conf w model_instance :
  fallback_in_use conf w model_instance ->
  exists m,
    get_model conf w model_instance = Return (m, Some m) /\
    DubaiRealEstateModel.model m = Some DummyModel.
Proof.
  destruct model_instance as [m|]; cbn [fallback_in_use get_model].
  - intros Hm. exists m. split; [reflexivity|exact Hm].
  - intros Hw. rewrite (__init___fallback w (MODEL_PATH conf) Hw).
    eexists. split; reflexivity.
Qed.

Lemma predict_overflow self utcnow request_data :
  float_ok (floor request_data) = false \/
  float_ok (building_age_years request_data) = false ->
  predict_sale_price self utcnow request_data = Raise OverflowError /\
  predict_rent_price self utcnow request_data = Raise OverflowError.
Proof.
  intros Hover.
  assert (Hs : predict_sale_price self utcnow request_data
               = Raise OverflowError).
  { unfold predict_sale_price.
    rewrite (encode_features_overflow _ _ Hover). reflexivity. }
  split; [exact Hs|].
  unfold predict_rent_price. rewrite Hs. reflexivity.
Qed.

(** X14: with the dummy model in use (the stored instance holds it, or none
    is stored and the artifact is missing or does not load), a request
    accepted by a schema, whose floor and building age a float holds, is
    always answered by its handler with a response, never with status 500:
    a sale of at least 710000 AED, a rent of at least 4733.33 AED, at
    confidence 0.85 and with the version of the instance.  An accepted
    request with a larger floor or age is answered with status 500, the
    detail carrying the text of the OverflowError. *)
Theorem valid_requests_are_served (str : exn -> string) conf w utcnow
    model_instance body d :
  fallback_in_use conf w model_instance ->
  exists m,
    get_model conf w model_instance = Return (m, Some m) /\
    (SalePredictionRequest body = Some d ->
     (float_ok (floor d) = true ->
      float_ok (building_age_years d) = true ->
      exists r,
        main.predict_sale_price str conf w utcnow model_instance d
        = (main.Response r, Some m) /\
        710000 <= PredictionResponse.predicted_price_aed r /\
        PredictionResponse.confidence_score r = 0.85 /\
        PredictionResponse.model_version r
        = DubaiRealEstateModel.model_version m) /\
     (float_ok (floor d) = false \/
      float_ok (building_age_years d) = false ->
      main.predict_sale_price str conf w utcnow model_instance d
      = (main.HTTPException 500
           ("Prediction failed: " ++ str OverflowError), Some m))) /\
    (RentPredictionRequest body = Some d ->
     (float_ok (floor d) = true ->
      float_ok (building_age_years d) = true ->
      exists r,
        main.predict_rent_price str conf w utcnow model_instance d
        = (main.Response r, Some m) /\
        4733.33 <= PredictionResponse.predicted_price_aed r /\
        PredictionResponse.confidence_score r = 0.85 /\
        PredictionResponse.model_version r
        = DubaiRealEstateModel.model_version m) /\
     (float_ok (floor d) = false \/
      float_ok (building_age_years d) = false ->
      main.predict_rent_price str conf w utcnow model_instance d
      = (main.HTTPException 500
           ("Prediction failed: " ++ str OverflowError), Some m))).
Proof.
  intros Hw.
  destruct (get_model_fallback conf w model_instance Hw) as (m & Hg & Hm).
  exists m. split; [exact Hg|].
  split; intros Hd; split.
  - intros Hf Ha. apply SalePredictionRequest_area_positive in Hd.
    destruct (fallback_raw_price_floor m utcnow d Hm Hf Ha)
      as (p & Hp & Hs); [lra|].
    eexists.
    unfold main.predict_sale_price. rewrite Hg, Hs. cbn [bind].
    split; [reflexivity|].
    cbn. split; [|split; reflexivity].
    apply Qle_trans with (round 710000 2); [discriminate|].
    now apply round_2_mono.
  - intros Hover.
    destruct (predict_overflow m utcnow d Hover) as (Hs & _).
    unfold main.predict_sale_price. rewrite Hg, Hs. reflexivity.
  - intros Hf Ha. apply RentPredictionRequest_area_positive in Hd.
    destruct (fallback_raw_price_floor m utcnow d Hm Hf Ha)
      as (p & Hp & Hs); [lra|].
    assert (Hr := predict_rent_price_returns m utcnow d _ Hs).
    eexists.
    unfold main.predict_rent_price. rewrite Hg, Hr by lra. cbn [bind].
    split; [reflexivity|].
    cbn [PredictionResponse_of overlay confidence_score Qle_bool andb
         PredictionResponse.predicted_price_aed
         PredictionResponse.confidence_score
         PredictionResponse.model_version predicted_price_aed model_version].
    split; [|split; reflexivity].
    apply Qle_trans with (round (14200 # 3) 2); [discriminate|].
    apply round_2_mono. apply rent_of_floor.
    cbn [predicted_price_aed].
    apply Qle_trans with (round 710000 2); [discriminate|].
    now apply round_2_mono.
  - intros Hover.
    destruct (predict_overflow m utcnow d Hover) as (_ & Hr).
    unfold main.predict_rent_price. rewrite Hg, Hr. reflexivity.
Qed.

Lemma valid_requests_are_served_witness :
  exists d r m,
    RentPredictionRequest (marina_body (Some "monthly")) = Some d /\
    main.predict_rent_price (fun _ => "error") (settings os_corrupt)
      os_corrupt "2024-01-01T00:00:00" (Some fallback_instance) d
    = (main.Response r, Some m) /\
    4733.33 <= PredictionResponse.predicted_price_aed r /\
    PredictionResponse.confidence_score r = 0.85 /\
    PredictionResponse.model_version r
    = DubaiRealEstateModel.model_version m.
Proof.
  assert (Hd : exists d,
             RentPredictionRequest (marina_body (Some "monthly")) = Some d /\
             float_ok (floor d) = true /\
             float_ok (building_age_years d) = true)
    by (eexists; split; [vm_compute; reflexivity|split; reflexivity]).
  destruct Hd as (d & Hd & Hf & Ha).
  destruct (valid_requests_are_served (fun _ => "error")
              (settings os_corrupt) os_corrupt "2024-01-01T00:00:00"
              (Some fallback_instance)
              (marina_body (Some "monthly")) d) as (m & _ & _ & Hrent).
  - reflexivity.
  - destruct (Hrent Hd) as (Hserved & _).
    destruct (Hserved Hf Ha) as (r & H).
    exists d, r, m. split; [exact Hd|exact H].
Defined.

(** X15: the health check never reports "degraded": once [get_model] has
    run the instance holds a model, the artifact or the dummy model alike,
    so the status is "healthy", [model_loaded] is true and the version is
    the instance's; the uptime is rounded to two decimals. *)
Theorem health_check_is_healthy conf w (start_time time : Q) model_instance :
  (forall m, model_instance = Some m -> DubaiRealEstateModel.model m <> None) ->
  exists h m,
    main.health_check conf w start_time time model_instance
    = Return (h, Some m) /\
    status h = "healthy" /\
    model_loaded h = true /\
    health_model_version h = Some (DubaiRealEstateModel.model_version m) /\
    uptime_seconds h = Some (round (time - start_time) 2).
Proof.
  intros Hinv.
  destruct (get_model_returns conf w model_instance Hinv)
    as (m & Hg & Hm & _).
  unfold main.health_check. rewrite Hg. cbn [bind fst snd].
  eexists. exists m. split; [reflexivity|].
  cbn [status model_loaded health_model_version uptime_seconds].
  destruct (DubaiRealEstateModel.model m); [|contradiction].
  repeat split.
Qed.

Lemma health_check_is_healthy_witness :
  exists h m,
    main.health_check (settings os_corrupt) os_corrupt 100 (4001 # 8)
      (Some fallback_instance)
    = Return (h, Some m) /\
    status h = "healthy" /\
    model_loaded h = true /\
    health_model_version h = Some (DubaiRealEstateModel.model_version m) /\
    uptime_seconds h = Some (round ((4001 # 8) - 100) 2).
Proof.
  apply (health_check_is_healthy (settings os_corrupt) os_corrupt 100
           (4001 # 8) (Some fallback_instance)).
  intros m [= <-]. discriminate.
Defined.

Lemma accepted_enums body d :
  SalePredictionRequest body = Some d \/ RentPredictionRequest body = Some d ->
  exists loc type,
    location body = Some loc /\ location d = Some loc /\
    loc ∈ DubaiLocation /\
    property_type body = Some type /\ property_type d = Some type /\
    type ∈ PropertyType.
Proof.
  unfold SalePredictionRequest, RentPredictionRequest.
  destruct (property_type body) as [type|], (bedrooms body),
    (bathrooms body), (area_sqft body), (location body) as [loc|];
    try (intros [H|H]; discriminate).
  destruct (bool_decide (type ∈ PropertyType)) eqn:Ht;
    [|intros [H|H]; discriminate].
  destruct (bool_decide (loc ∈ DubaiLocation)) eqn:Hl.
  - apply bool_decide_eq_true in Ht, Hl.
    intros [H|H];
      match type of H with
      | (if ?b then _ else _) = _ => destruct b; [|discriminate]
      end;
      injection H as <-; exists loc, type; repeat split; assumption.
  - intros [H|H]; rewrite ?andb_false_r in H; cbn in H;
      rewrite ?andb_false_r in H; discriminate.
Qed.

(** X16: [model_info] advertises what the schemas accept: every request
    accepted for a sale or a rent names a location and a property type of
    its two lists, so a body with a location outside [supported_locations]
    is rejected by both schemas and the default factor 1.0 of an unknown
    location is never used for a validated request; [model_loaded] is
    always true. *)
Theorem model_info_matches_schemas conf w model_instance :
  (forall m, model_instance = Some m -> DubaiRealEstateModel.model m <> None) ->
  exists info m,
    main.model_info conf w model_instance = Return (info, Some m) /\
    main.info_model_loaded info = true /\
    main.info_model_version info = DubaiRealEstateModel.model_version m /\
    (forall body d,
       SalePredictionRequest body = Some d \/
       RentPredictionRequest body = Some d ->
       exists loc type,
         location d = Some loc /\ loc ∈ main.supported_locations info /\
         property_type d = Some type /\
         type ∈ main.supported_property_types info) /\
    (forall body loc,
       location body = Some loc -> loc ∉ main.supported_locations info ->
       SalePredictionRequest body = None /\
       RentPredictionRequest body = None).
Proof.
  intros Hinv.
  destruct (get_model_returns conf w model_instance Hinv)
    as (m & Hg & Hm & _).
  unfold main.model_info. rewrite Hg. cbn [bind fst snd].
  eexists. exists m. split; [reflexivity|].
  cbn [main.info_model_loaded main.info_model_version
       main.supported_locations main.supported_property_types].
  split.
  { destruct (DubaiRealEstateModel.model m); [reflexivity|contradiction]. }
  split; [reflexivity|]. split.
  - intros body d Hd.
    destruct (accepted_enums body d Hd)
      as (loc & type & _ & Hl & Hin & _ & Ht & Htin).
    exists loc, type. repeat split; assumption.
  - intros body loc Hloc Hnot.
    split.
    + destruct (SalePredictionRequest body) as [d|] eqn:Hd; [|reflexivity].
      destruct (accepted_enums body d (or_introl Hd))
        as (loc' & type & Hl & _ & Hin & _).
      rewrite Hloc in Hl. injection Hl as <-. contradiction.
    + destruct (RentPredictionRequest body) as [d|] eqn:Hd; [|reflexivity].
      destruct (accepted_enums body d (or_intror Hd))
        as (loc' & type & Hl & _ & Hin & _).
      rewrite Hloc in Hl. injection Hl as <-. contradiction.
Qed.

Lemma model_info_matches_schemas_witness :
  exists info m,
    main.model_info (settings os_corrupt) os_corrupt (Some fallback_instance)
    = Return (info, Some m) /\
    main.info_model_loaded info = true /\
    "jbr" ∈ main.supported_locations info.
Proof.
  destruct (model_info_matches_schemas (settings os_corrupt) os_corrupt
              (Some fallback_instance))
    as (info & m & Hinfo & Hloaded & _ & Hacc & _).
  - intros m [= <-]. discriminate.
  - exists info, m. split; [exact Hinfo|]. split; [exact Hloaded|].
    destruct (Hacc (with_contract_type basement_flat None)
                (with_contract_type
                   {| property_type := Some "apartment";
                      bedrooms := Some 1%Z;
                      bathrooms := Some 1%Z;
                      area_sqft := Some 700;
                      location := Some "jbr";
                      floor := Some (-2)%Z;
                      building_age_years := Some 3%Z;
                      has_parking := Some true;
                      has_balcony := Some false;
                      has_gym := Some false;
                      has_pool := Some false;
                      near_metro := Some false;
                      furnished := Some false;
                      contract_type := None |} (Some "annual")))
      as (loc & type & Hl & Hin & _).
    + right. vm_compute. reflexivity.
    + injection Hl as <-. exact Hin.
Defined.

(** ** Synthetic training data *)

Ltac factor_entry key :=
  lazymatch goal with
  | |- context [String.eqb key ?k] =>
      rewrite list_to_map_cons;
      destruct (String.eqb_spec key k) as [->|?];
      [vm_compute; reflexivity | rewrite lookup_insert_ne by congruence]
  end.

Lemma location_factors_lookup (loc : string) :
  (list_to_map
     [("dubai_marina", 1.0); ("downtown", 1.2); ("business_bay", 1.1);
      ("jlt", 0.9); ("jbr", 1.0); ("difc", 1.3); ("palm_jumeirah", 1.4);
      ("emirates_hills", 1.2); ("arabian_ranches", 0.8);
      ("dubai_hills", 0.9); ("motor_city", 0.7)] : gmap string Q) !! loc
  = if bool_decide (loc ∈ train_model.locations)
    then Some (spec_location_factor loc) else None.
Proof.
  unfold spec_location_factor.
  do 11 factor_entry loc.
  rewrite list_to_map_nil, lookup_empty.
  rewrite bool_decide_eq_false_2; [reflexivity|].
  unfold train_model.locations. intros Hin.
  repeat (apply elem_of_cons in Hin as [?|Hin]; [congruence|]).
  now apply elem_of_nil in Hin.
Qed.

Lemma property_factors_lookup (type : string) :
  (list_to_map
     [("apartment", 1.0); ("villa", 1.5); ("townhouse", 1.2);
      ("studio", 0.7); ("penthouse", 1.8)] : gmap string Q) !! type
  = if bool_decide (type ∈ train_model.property_types)
    then Some (spec_property_factor type) else None.
Proof.
  unfold spec_property_factor.
  do 5 factor_entry type.
  rewrite list_to_map_nil, lookup_empty.
  rewrite bool_decide_eq_false_2; [reflexivity|].
  unfold train_model.property_types. intros Hin.
  repeat (apply elem_of_cons in Hin as [?|Hin]; [congruence|]).
  now apply elem_of_nil in Hin.
Qed.

Lemma spec_property_factor_bounds (type : string) :
  7 # 10 <= spec_property_factor type <= 18 # 10.
Proof.
  unfold spec_property_factor.
  repeat match goal with
         | |- context [if ?b then _ else _] => destruct b
         end;
    split; discriminate.
Qed.

Lemma inject_Z_between (lo hi v : Z) :
  (lo <= v < hi)%Z -> inject_Z lo <= inject_Z v /\ inject_Z v <= inject_Z hi.
Proof.
  intros [Hlo Hhi]. rewrite <- !Zle_Qle. lia.
Qed.

(** Within the bounds of the draws the price before the noise is positive,
    so the scale given to [np.random.normal] is not negative. *)
Lemma drawn_scale_nonneg (d : train_model.draws) :
  drawn d ->
  0 <= (500000 * spec_location_factor (train_model.location d)
        * spec_property_factor (train_model.property_type d)
        + inject_Z (train_model.bedrooms d) * 100000
        + inject_Z (train_model.bathrooms d) * 50000
        + (train_model.area_sqft d / 1000) * 300000
        + (50 - inject_Z (train_model.floor d)) * 2000
        + (20 - inject_Z (train_model.building_age d)) * 5000
        + inject_Z (int (train_model.has_parking d)) * 50000
        + inject_Z (int (train_model.has_balcony d)) * 30000
        + inject_Z (int (train_model.has_gym d)) * 40000
        + inject_Z (int (train_model.has_pool d)) * 60000
        + inject_Z (int (train_model.near_metro d)) * 30000
        + inject_Z (int (train_model.furnished d)) * 80000) * 0.1.
Proof.
  intros (_ & _ & Hbed & Hbath & Harea & Hfloor & Hage).
  destruct (location_premium_exact (train_model.location d)) as (_ & Hl & _).
  destruct (spec_property_factor_bounds (train_model.property_type d))
    as (Ht & _).
  apply inject_Z_between in Hbed as [Hbed _].
  apply inject_Z_between in Hbath as [Hbath _].
  apply inject_Z_between in Hfloor as [_ Hfloor].
  apply inject_Z_between in Hage as [_ Hage].
  change (inject_Z 0) with 0 in Hbed. change (inject_Z 1) with 1 in Hbath.
  change (inject_Z 50) with 50 in Hfloor. change (inject_Z 20) with 20 in Hage.
  assert (Hprod : 0 <= 500000 * spec_location_factor (train_model.location d)
                       * spec_property_factor (train_model.property_type d)).
  { apply Qmult_le_0_compat; lra. }
  assert (Earea : train_model.area_sqft d / 1000 * 300000
                  == train_model.area_sqft d * 300) by field.
  rewrite Earea.
  assert (Hflags : forall b : bool, 0 <= inject_Z (int b))
    by (intros []; discriminate).
  pose proof (Hflags (train_model.has_parking d)).
  pose proof (Hflags (train_model.has_balcony d)).
  pose proof (Hflags (train_model.has_gym d)).
  pose proof (Hflags (train_model.has_pool d)).
  pose proof (Hflags (train_model.near_metro d)).
  pose proof (Hflags (train_model.furnished d)).
  lra.
Qed.

Lemma sample_row_Return (d : train_model.draws) :
  drawn d ->
  train_model.sample_row d
  = Return
      [ inject_Z (train_model.bedrooms d);
        inject_Z (train_model.bathrooms d);
        train_model.area_sqft d;
        spec_location_factor (train_model.location d);
        spec_property_factor (train_model.property_type d);
        inject_Z (train_model.floor d) / 50.0;
        inject_Z (train_model.building_age d) / 50.0;
        inject_Z (int (train_model.has_parking d));
        inject_Z (int (train_model.has_balcony d));
        inject_Z (int (train_model.has_gym d));
        inject_Z (int (train_model.has_pool d));
        inject_Z (int (train_model.near_metro d));
        inject_Z (int (train_model.furnished d));
        label_of d ].
Proof.
  intros Hd. pose proof (drawn_scale_nonneg d Hd) as Hscale.
  destruct Hd as (Hl & Ht & _).
  unfold train_model.sample_row, getitem. cbv zeta.
  rewrite location_factors_lookup, property_factors_lookup.
  rewrite !bool_decide_eq_true_2 by assumption.
  unfold bind, np_random_normal. cbv beta iota zeta.
  apply Qlt_bool_false_iff in Hscale. rewrite Hscale.
  unfold label_of. cbv beta iota zeta.
  reflexivity.
Qed.





(** Membership in a list of literals, by evaluation. *)
Ltac listed := refine (bool_decide_eq_true_1 _ _); vm_compute; reflexivity.

(** The bounds of a concrete draw, by evaluation. *)
Ltac in_bounds :=
  split; [listed|]; split; [listed|];
  repeat split; try (cbn; lia); vm_compute; discriminate.


Lemma small_float_ok (v : Z) :
  (0 <= v < 50)%Z -> float_ok (Some v) = true.
Proof.
  intros Hv. cbn [float_ok]. apply Z.ltb_lt.
  assert (H50 : (50 <= float_max_int)%Z) by (vm_compute; discriminate).
  lia.
Qed.

(** X18: the training rows and [encode_features] lay out the same thirteen
    features: for a draw whose floor and building age are not zero the
    feature columns of its row are the row [encode_features] returns for
    the request with the same attributes.  At floor 0 (and at age 0) they
    differ: the training row has 0 where [encode_features] has 0.1. *)
Theorem training_row_versus_encoding self (d : train_model.draws) :
  drawn d ->
  exists row encoded,
    train_model.sample_row d = Return row /\
    encode_features self (request_of_draws d) = Return [encoded] /\
    (train_model.floor d <> 0%Z -> train_model.building_age d <> 0%Z ->
     train_model.feature_columns row = encoded) /\
    (train_model.floor d = 0%Z ->
     feature (train_model.feature_columns row) 5 == 0 /\
     feature encoded 5 = 0.1) /\
    (train_model.building_age d = 0%Z ->
     feature (train_model.feature_columns row) 6 == 0 /\
     feature encoded 6 = 0.1).
Proof.
  intros Hd.
  eexists. exists (spec_feature_vector (request_of_draws d)).
  split; [apply (sample_row_Return d Hd)|].
  split.
  { destruct Hd as (_ & _ & _ & _ & _ & Hfloor & Hage).
    apply encode_features_row; apply small_float_ok; lia. }
  unfold train_model.feature_columns, spec_feature_vector, request_of_draws,
    feature.
  cbn [take nth get property_type bedrooms bathrooms area_sqft location
       floor building_age_years has_parking has_balcony has_gym has_pool
       near_metro furnished spec_normalized].
  split; [|split].
  - intros Hf Ha.
    destruct (Z.eqb_spec (train_model.floor d) 0); [contradiction|].
    destruct (Z.eqb_spec (train_model.building_age d) 0); [contradiction|].
    reflexivity.
  - intros ->. split; reflexivity.
  - intros ->. split; reflexivity.
Qed.

Lemma training_row_versus_encoding_witness :
  (exists row encoded,
     train_model.sample_row marina_draws = Return row /\
     encode_features fallback_instance (request_of_draws marina_draws)
     = Return [encoded] /\
     train_model.feature_columns row = encoded) /\
  (exists row encoded,
     train_model.sample_row ground_floor_draws = Return row /\
     encode_features fallback_instance (request_of_draws ground_floor_draws)
     = Return [encoded] /\
     feature (train_model.feature_columns row) 5 == 0 /\
     feature encoded 5 = 0.1).
Proof.
  split.
  - destruct (training_row_versus_encoding fallback_instance marina_draws)
      as (row & encoded & Hrow & Henc & Hsame & _).
    + in_bounds.
    + exists row, encoded. split; [exact Hrow|]. split; [exact Henc|].
      apply Hsame; discriminate.
  - destruct (training_row_versus_encoding fallback_instance
                ground_floor_draws)
      as (row & encoded & Hrow & Henc & _ & Hzero & _).
    + in_bounds.
    + exists row, encoded. split; [exact Hrow|]. split; [exact Henc|].
      apply Hzero. reflexivity.
Defined.
